(** * Build orchestration scripts of the ESP32-C3 IoT workspace

    A shallow embedding of [build_test_all.py] (the full runner, class
    [BuildTester] and its [main]) and of [test_working_modules.py] (the
    quick probe), with the properties of their specification.

    Modelling conventions.
    - Python [str] is [string]; case folding and whitespace are those of
      Python on ASCII characters, every other character is left alone by
      [lower] and is not whitespace.
    - A Python exception is a value of [exn]; code that can raise lives in
      the monad [M], whose state survives a raise as Python's mutations do.
      Asynchronous interrupts, which derive from [BaseException] only, are
      outside the model.
    - The operating system (processes, file system) is the class [OS]: an
      abstract world threaded through every call. Each process invocation
      is also logged in [calls], so that the sequence of invocations of a
      run can be stated.
    - Console output does not influence control flow and is left out, with
      two exceptions: the lines in which [main] echoes its arguments are
      kept in [console], and the success-rate text of the report is
      evaluated, because its evaluation can raise. *)

From Stdlib Require Import List String Ascii Bool Arith ZArith Lia.
From Stdlib Require Import Floats.SpecFloat.
From Stdlib Require Import DecimalString.
From Stdlib Require Import Sorting.Permutation.
Import ListNotations.
Open Scope list_scope.
Open Scope string_scope.

Set Implicit Arguments.

(** ** Python strings *)

Module PyStr.

Definition LF : ascii := "010"%char.

(** [s1 + "\n" + s2] *)
Definition nl : string := String LF EmptyString.

(** [str.isspace] on one ASCII character: TAB, LF, VT, FF, CR,
    FS, GS, RS, US and the space. *)
Definition isspace (c : ascii) : bool :=
  let n := nat_of_ascii c in
  (((9 <=? n) && (n <=? 13)) || ((28 <=? n) && (n <=? 31)) || (n =? 32))%nat.

Definition lower_char (c : ascii) : ascii :=
  let n := nat_of_ascii c in
  if ((65 <=? n) && (n <=? 90))%nat then ascii_of_nat (n + 32) else c.

(** [s.lower()] *)
Fixpoint lower (s : string) : string :=
  match s with
  | EmptyString => EmptyString
  | String c r => String (lower_char c) (lower r)
  end.

Fixpoint lstrip (s : string) : string :=
  match s with
  | EmptyString => EmptyString
  | String c r => if isspace c then lstrip r else s
  end.

Fixpoint rstrip (s : string) : string :=
  match s with
  | EmptyString => EmptyString
  | String c r =>
      match rstrip r with
      | EmptyString => if isspace c then EmptyString else String c EmptyString
      | r' => String c r'
      end
  end.

(** [s.strip()] *)
Definition strip (s : string) : string := rstrip (lstrip s).

(** [s.startswith(p)] *)
Fixpoint startswith (p s : string) : bool :=
  match p, s with
  | EmptyString, _ => true
  | String _ _, EmptyString => false
  | String a p', String b s' => Ascii.eqb a b && startswith p' s'
  end.

(** [p in s] *)
Fixpoint contains (p s : string) : bool :=
  startswith p s ||
  match s with
  | EmptyString => false
  | String _ r => contains p r
  end.

(** [s.split('\n')]: never empty, one more piece than there are
    line feeds. *)
Fixpoint split_lines (s : string) : list string :=
  match s with
  | EmptyString => [EmptyString]
  | String c r =>
      if Ascii.eqb c LF then EmptyString :: split_lines r
      else match split_lines r with
           | [] => [String c EmptyString]
           | h :: t => String c h :: t
           end
  end.

(** [s[:n]] *)
Definition take (n : nat) (s : string) : string := substring 0 n s.

(** [sep.join(xs)] *)
Fixpoint join (sep : string) (xs : list string) : string :=
  match xs with
  | [] => EmptyString
  | [x] => x
  | x :: r => x ++ sep ++ join sep r
  end.

(** truth value of a string: empty is false *)
Definition truthy (s : string) : bool :=
  match s with EmptyString => false | _ => true end.

(** truth value of a value that is [None] or a string *)
Definition truthy_opt (o : option string) : bool :=
  match o with None => false | Some s => truthy s end.

(** [str(n)] for a non-negative integer *)
Definition str_of_nat (n : nat) : string :=
  NilZero.string_of_uint (Nat.to_uint n).

End PyStr.

(** ** The warning scanner, [BuildTester.detect_warnings] *)

Definition warning_patterns : list string :=
  [ "warning:"; "unused"; "dead_code"; "deprecated";
    "unreachable_code"; "non_snake_case" ].

(** The inner loop over the patterns for one line: the first pattern found
    in the lowercased line appends the stripped line and breaks. *)
Fixpoint scan_line (patterns : list string) (line : string)
    (warnings : list string) : list string :=
  match patterns with
  | [] => warnings
  | pattern :: rest =>
      if PyStr.contains pattern (PyStr.lower line)
      then (warnings ++ [PyStr.strip line])%list
      else scan_line rest line warnings
  end.

Definition detect_warnings (stdout stderr : string) : list string :=
  let combined_output := stdout ++ PyStr.nl ++ stderr in
  fold_left (fun warnings line => scan_line warning_patterns line warnings)
            (PyStr.split_lines combined_output) [].

(** The scanner in the words of the specification: a line is a warning
    line when its lowercased form contains at least one marker. *)
Definition is_warning_line (line : string) : bool :=
  existsb (fun pattern => PyStr.contains pattern (PyStr.lower line))
          warning_patterns.

Definition combined_lines (stdout stderr : string) : list string :=
  PyStr.split_lines (stdout ++ PyStr.nl ++ stderr).

(** the reading of the specification: the matching lines themselves *)
Definition spec_warning_lines (stdout stderr : string) : list string :=
  filter is_warning_line (combined_lines stdout stderr).

(** number of different strings in a list *)
Definition count_distinct (xs : list string) : nat :=
  List.length (nodup string_dec xs).

(** ** Exceptions and the effect monad *)

(** The exceptions the scripts can meet. [subprocess.TimeoutExpired] has a
    handler of its own in the source; every other subclass of [Exception]
    is carried with its class name and with [str(e)]. *)
Inductive exn : Type :=
| TimeoutExpired
| Exception (cls msg : string).

Definition ZeroDivisionError : exn :=
  Exception "ZeroDivisionError" "division by zero".

Definition OverflowError : exn :=
  Exception "OverflowError" "integer division result too large for a float".

(** the outcome of evaluating an expression: it raises or it has a value *)
Definition result (A : Type) : Type := (exn + A)%type.

(** Computations over a mutable state [S] that may raise. *)
Definition M (S A : Type) : Type := S -> result A * S.

Definition ret {S A} (a : A) : M S A := fun s => (inr a, s).

Definition raise {S A} (e : exn) : M S A := fun s => (inl e, s).

Definition bind {S A B} (c : M S A) (k : A -> M S B) : M S B :=
  fun s =>
    match c s with
    | (inr a, s') => k a s'
    | (inl e, s') => (inl e, s')
    end.

Declare Scope py_scope.
Delimit Scope py_scope with py.
Notation "x <- c ;; k" := (bind c (fun x => k))
  (at level 61, c at next level, right associativity) : py_scope.
Notation "' pat <- c ;; k" := (bind c (fun x => match x with pat => k end))
  (at level 61, pat pattern, c at next level, right associativity) : py_scope.
Notation "c ;; k" := (bind c (fun _ => k))
  (at level 61, right associativity) : py_scope.
Open Scope py_scope.

(** [try: body except ...]: [handler e] is the clause that matches [e],
    if there is one. *)
Definition try_except {S A} (body : M S A) (handler : exn -> option (M S A))
    : M S A :=
  fun s =>
    match body s with
    | (inl e, s') =>
        match handler e with
        | Some h => h s'
        | None => (inl e, s')
        end
    | r => r
    end.

Definition get {S} : M S S := fun s => (inr s, s).

Definition modify {S} (f : S -> S) : M S unit := fun s => (inr tt, f s).

(** the value of an expression that may raise *)
Definition eval {S A} (r : result A) : M S A := fun s => (r, s).

(** [for x in xs: body x] *)
Fixpoint for_each {S A} (xs : list A) (body : A -> M S unit) : M S unit :=
  match xs with
  | [] => ret tt
  | x :: rest => body x ;; for_each rest body
  end.

(** ** Floating point: [a / b * 100] and the format [.1f] *)

Module PyFloat.

Definition prec : Z := 53.
Definition emax : Z := 1024.

(** an integer as the exact binary number it is *)
Definition of_nat (n : nat) : spec_float :=
  match n with
  | O => S754_zero false
  | _ => S754_finite false (Pos.of_nat n) 0
  end.

(** [a / b] on integers: the correctly rounded quotient; it raises on a
    zero divisor and when the quotient is too large for a float. *)
Definition int_truediv (a b : nat) : result spec_float :=
  match b with
  | O => inl ZeroDivisionError
  | _ =>
      match SFdiv prec emax (of_nat a) (of_nat b) with
      | S754_infinity _ => inl OverflowError
      | q => inr q
      end
  end.

(** [x * 100] *)
Definition times_100 (x : spec_float) : spec_float :=
  SFmul prec emax x (of_nat 100).

(** [num / den] rounded to the nearest integer, ties to even ([den > 0]) *)
Definition round_half_even (num den : Z) : Z :=
  let q := (num / den)%Z in
  let r := (num mod den)%Z in
  if (2 * r <? den)%Z then q
  else if (den <? 2 * r)%Z then (q + 1)%Z
  else if Z.even q then q else (q + 1)%Z.

Definition str_of_Z (z : Z) : string := PyStr.str_of_nat (Z.to_nat z).

Definition sign_text (s : bool) : string := if s then "-" else "".

(** [f"{x:.1f}"]: the decimal with one digit after the point that is
    nearest to the exact value of [x], ties to even. *)
Definition format_1f (x : spec_float) : string :=
  match x with
  | S754_zero s => sign_text s ++ "0.0"
  | S754_infinity s => sign_text s ++ "inf"
  | S754_nan => "nan"
  | S754_finite s m e =>
      let tenths :=
        match e with
        | Zneg p => round_half_even (Zpos m * 10) (2 ^ Zpos p)
        | _ => (Zpos m * 10 * 2 ^ e)%Z
        end in
      sign_text s ++ str_of_Z (tenths / 10) ++ "." ++ str_of_Z (tenths mod 10)
  end.

End PyFloat.

(** ** The operating system *)

Definition Path : Type := string.

(** [p / name] for a path [p] and a relative name *)
Definition path_join (p : Path) (name : string) : Path := p ++ "/" ++ name.

(** what [subprocess.run(..., capture_output=True, text=True)] returns *)
Record CompletedProcess : Type := {
  returncode : Z;
  cp_stdout : string;
  cp_stderr : string
}.

(** one invocation of [subprocess.run]: command, [cwd], timeout in seconds *)
Record Call : Type := {
  call_cmd : list string;
  call_cwd : option Path;
  call_timeout : nat
}.

(** The environment of a run. A process either completes or the call
    raises: [TimeoutExpired] when the timeout passes, another exception
    when the program cannot be started. *)
Class OS : Type := {
  World : Type;
  os_run : list string -> option Path -> nat -> World ->
           result CompletedProcess * World;
  os_exists : Path -> World -> bool;
  os_resolve : string -> World -> Path;
  os_read : Path -> World -> result string
}.

(** the state of the running script outside its own objects *)
Record Proc {os : OS} : Type := {
  world : World;
  calls : list Call
}.

Section Primitives.
Context {os : OS}.

(** [subprocess.run(cmd, cwd=cwd, capture_output=True, text=True,
    timeout=timeout)] *)
Definition subprocess_run (cmd : list string) (cwd : option Path)
    (timeout : nat) : M Proc CompletedProcess :=
  fun p =>
    let (r, w) := os_run cmd cwd timeout (world p) in
    (r, {| world := w;
           calls := (calls p ++ [ {| call_cmd := cmd; call_cwd := cwd;
                                     call_timeout := timeout |} ])%list |}).

(** [path.exists()] *)
Definition path_exists (p : Path) : M Proc bool :=
  fun s => (inr (os_exists p (world s)), s).

(** [Path(s).resolve()] *)
Definition path_resolve (s : string) : M Proc Path :=
  fun st => (inr (os_resolve s (world st)), st).

(** [open(p, 'r').read()] *)
Definition read_text (p : Path) : M Proc string :=
  fun s => (os_read p (world s), s).

End Primitives.

(** ** The full runner, [build_test_all.py] *)

Module FullRunner.

(** a module's entry in [self.modules]; a key the dictionary may lack is
    an [option] *)
Record ModuleConfig : Type := {
  examples : list string;
  features : option string;
  features_examples : option (list string);
  binaries : option (list string);
  test_only : option bool
}.

Definition library (exs : list string) (feat : option string) : ModuleConfig :=
  {| examples := exs; features := feat; features_examples := None;
     binaries := None; test_only := None |}.

Definition skipped : ModuleConfig :=
  {| examples := []; features := None; features_examples := None;
     binaries := None; test_only := Some true |}.

(** [self.modules], in declaration order *)
Definition modules_table : list (string * ModuleConfig) :=
  [ ("blinky", library [] None);
    ("bme280-embassy",
       library ["basic_reading"; "full_system"; "hal_integration"] None);
    ("wifi-embassy",
       library ["simple_connect"; "wifi_test"; "wifi_test_new";
                "wifi_mqtt_test"] None);
    ("wifi-synchronous",
       library ["simple_wifi_sync"; "wifi_manager_sync"] None);
    ("serial-console-embassy",
       {| examples := ["basic_console"; "simple_working_console";
                       "direct_usb_console"; "usb_bridge_console";
                       "system_console"];
          features := None;
          features_examples := Some ["system_console"];
          binaries := None; test_only := None |});
    ("mqtt-embassy",
       library ["basic_mqtt"; "mqtt_test"; "mqtt_test_working"]
               (Some "examples"));
    ("main-app",
       {| examples := []; features := None; features_examples := None;
          binaries := Some ["main"; "main_container"]; test_only := None |});
    ("iot-common", library ["error_conversion"; "error_handling"] None);
    ("iot-container", skipped);
    ("iot-hal", skipped);
    ("iot-performance", skipped);
    ("bme280-tests", skipped) ].

(** one entry of [self.results] *)
Record ResultRecord : Type := {
  description : string;
  success : bool;
  stdout : string;
  stderr : string;
  warnings : list string
}.

Record BuildTester : Type := {
  workspace_root : Path;
  results : list ResultRecord;
  total_tests : nat;
  passed_tests : nat;
  failed_tests : nat;
  warnings_count : nat;
  show_warnings : bool;
  modules : list (string * ModuleConfig)
}.

(** [BuildTester.__init__], given the resolved workspace root *)
Definition init (root : Path) : BuildTester :=
  {| workspace_root := root; results := [];
     total_tests := 0; passed_tests := 0; failed_tests := 0;
     warnings_count := 0; show_warnings := true;
     modules := modules_table |}.

Definition set_total_tests (n : nat) (t : BuildTester) : BuildTester :=
  {| workspace_root := workspace_root t; results := results t;
     total_tests := n; passed_tests := passed_tests t;
     failed_tests := failed_tests t; warnings_count := warnings_count t;
     show_warnings := show_warnings t; modules := modules t |}.

Definition set_passed_tests (n : nat) (t : BuildTester) : BuildTester :=
  {| workspace_root := workspace_root t; results := results t;
     total_tests := total_tests t; passed_tests := n;
     failed_tests := failed_tests t; warnings_count := warnings_count t;
     show_warnings := show_warnings t; modules := modules t |}.

Definition set_failed_tests (n : nat) (t : BuildTester) : BuildTester :=
  {| workspace_root := workspace_root t; results := results t;
     total_tests := total_tests t; passed_tests := passed_tests t;
     failed_tests := n; warnings_count := warnings_count t;
     show_warnings := show_warnings t; modules := modules t |}.

Definition set_warnings_count (n : nat) (t : BuildTester) : BuildTester :=
  {| workspace_root := workspace_root t; results := results t;
     total_tests := total_tests t; passed_tests := passed_tests t;
     failed_tests := failed_tests t; warnings_count := n;
     show_warnings := show_warnings t; modules := modules t |}.

Definition set_show_warnings (b : bool) (t : BuildTester) : BuildTester :=
  {| workspace_root := workspace_root t; results := results t;
     total_tests := total_tests t; passed_tests := passed_tests t;
     failed_tests := failed_tests t; warnings_count := warnings_count t;
     show_warnings := b; modules := modules t |}.

Definition append_result (r : ResultRecord) (t : BuildTester) : BuildTester :=
  {| workspace_root := workspace_root t; results := (results t ++ [r])%list;
     total_tests := total_tests t; passed_tests := passed_tests t;
     failed_tests := failed_tests t; warnings_count := warnings_count t;
     show_warnings := show_warnings t; modules := modules t |}.

(** truth value of a list: empty is false *)
Definition nonempty {A} (xs : list A) : bool :=
  match xs with [] => false | _ => true end.

(** [BuildTester.record_result]: the one place that changes the counters
    and the log. *)
Definition record_result (description : string) (success : bool)
    (stdout stderr : string) (t : BuildTester) : BuildTester :=
  let t := set_total_tests (total_tests t + 1) t in
  let warnings := detect_warnings stdout stderr in
  let t := if nonempty warnings
           then set_warnings_count (warnings_count t + List.length warnings) t
           else t in
  let t := if success
           then set_passed_tests (passed_tests t + 1) t
           else set_failed_tests (failed_tests t + 1) t in
  append_result {| description := description; success := success;
                   stdout := stdout; stderr := stderr;
                   warnings := warnings |} t.

(** a string argument that is given and not empty *)
Definition given (o : option string) : option string :=
  match o with
  | Some s => if PyStr.truthy s then Some s else None
  | None => None
  end.

Section Methods.
Context {os : OS}.

(** the tester object and the rest of the process *)
Record Runner : Type := {
  self : BuildTester;
  proc : Proc
}.

Definition lift_proc {A} (c : M Proc A) : M Runner A :=
  fun r =>
    let (a, p) := c (proc r) in
    (a, {| self := self r; proc := p |}).

Definition get_self : M Runner BuildTester :=
  fun r => (inr (self r), r).

Definition modify_self (f : BuildTester -> BuildTester) : M Runner unit :=
  fun r => (inr tt, {| self := f (self r); proc := proc r |}).

(** [BuildTester.run_command] *)
Definition run_command (cmd : list string) (cwd : Path)
    (description : string) : M Proc (bool * string * string) :=
  try_except
    (result <- subprocess_run cmd (Some cwd) 300 ;;
     let success := (returncode result =? 0)%Z in
     let stdout := PyStr.strip (cp_stdout result) in
     let stderr := PyStr.strip (cp_stderr result) in
     ret (success, stdout, stderr))
    (fun e =>
       match e with
       | TimeoutExpired =>
           Some (ret (false, "", "Command timed out after 5 minutes"))
       | Exception _ msg =>
           Some (ret (false, "", "Command failed: " ++ msg))
       end).

Definition clean_cmd : list string := ["cargo"; "clean"].

(** [BuildTester.clean_workspace] *)
Definition clean_workspace : M Runner bool :=
  t <- get_self ;;
  '(success, _, _) <-
     lift_proc (run_command clean_cmd (workspace_root t) "Clean workspace") ;;
  ret success.

Definition workspace_cmd (module : string) (example features : option string)
    : list string :=
  let cmd := ["cargo"; "build"] in
  let cmd := match given example with
             | Some e => (cmd ++ ["--example"; e])%list
             | None => (cmd ++ ["-p"; module])%list
             end in
  let cmd := match given features with
             | Some f => (cmd ++ ["--features"; f])%list
             | None => cmd
             end in
  (cmd ++ ["--release"])%list.

Definition with_example (description : string) (example : option string)
    : string :=
  match given example with
  | Some e => description ++ " (example: " ++ e ++ ")"
  | None => description
  end.

(** [BuildTester.test_workspace_build] *)
Definition test_workspace_build (module : string)
    (example features : option string) : M Runner bool :=
  let cmd := workspace_cmd module example features in
  let description := with_example ("Workspace build: " ++ module) example in
  t <- get_self ;;
  '(success, stdout, stderr) <-
     lift_proc (run_command cmd (workspace_root t) description) ;;
  modify_self (record_result description success stdout stderr) ;;
  ret success.

Definition module_cmd (example features : option string) : list string :=
  let cmd := ["cargo"; "build"] in
  let cmd := match given example with
             | Some e => (cmd ++ ["--example"; e])%list
             | None => cmd
             end in
  let cmd := match given features with
             | Some f => (cmd ++ ["--features"; f])%list
             | None => cmd
             end in
  (cmd ++ ["--release"])%list.

(** [BuildTester.test_module_build] *)
Definition test_module_build (module : string)
    (example features : option string) : M Runner bool :=
  t <- get_self ;;
  let module_path := path_join (workspace_root t) module in
  present <- lift_proc (path_exists module_path) ;;
  if negb present then ret false
  else
    let cmd := module_cmd example features in
    let description := with_example ("Module build: " ++ module) example in
    '(success, stdout, stderr) <-
       lift_proc (run_command cmd module_path description) ;;
    modify_self (record_result description success stdout stderr) ;;
    ret success.

(** [config.get("binaries")] as a list: a missing key has no elements *)
Definition binaries_of (config : ModuleConfig) : list string :=
  match binaries config with Some bs => bs | None => [] end.

(** [config.get("test_only", False)] *)
Definition is_test_only (config : ModuleConfig) : bool :=
  match test_only config with Some b => b | None => false end.

(** the feature value of one example: ["full"] when the example is listed
    under [features_examples], the module's own otherwise *)
Definition example_features (config : ModuleConfig) (example : string)
    : option string :=
  match features_examples config with
  | Some special =>
      if existsb (String.eqb example) special then Some "full"
      else features config
  | None => features config
  end.

(** the binary loop of [test_all_modules] for one binary *)
Definition test_binary (module binary : string) : M Runner unit :=
  if String.eqb binary "main_container" then ret tt
  else
    clean_workspace ;;
    let cmd := ["cargo"; "build"; "--release"; "--bin"; binary] in
    let description :=
      "Workspace build: " ++ module ++ " (binary: " ++ binary ++ ")" in
    t <- get_self ;;
    '(success, stdout, stderr) <-
       lift_proc (run_command cmd (workspace_root t) description) ;;
    modify_self (record_result description success stdout stderr).

(** the body of the loop of [test_all_modules] for one module; each
    [continue] of the source ends the body *)
Definition test_one_module (entry : string * ModuleConfig) : M Runner unit :=
  let (module, config) := entry in
  cleaned <- clean_workspace ;;
  if negb cleaned then ret tt
  else if is_test_only config then ret tt
  else
    (if negb (nonempty (examples config))
        && negb (nonempty (binaries_of config))
     then
       test_workspace_build module None (features config) ;;
       clean_workspace ;;
       test_module_build module None (features config) ;;
       ret tt
     else ret tt) ;;
    (if nonempty (binaries_of config)
     then for_each (binaries_of config) (test_binary module)
     else ret tt) ;;
    for_each (examples config) (fun example =>
      clean_workspace ;;
      test_workspace_build module (Some example)
                           (example_features config example) ;;
      ret tt) ;;
    for_each (examples config) (fun example =>
      clean_workspace ;;
      test_module_build module (Some example)
                        (example_features config example) ;;
      ret tt).

(** [BuildTester.test_all_modules] *)
Definition test_all_modules : M Runner unit :=
  t <- get_self ;;
  for_each (modules t) test_one_module.

(** the text after ["Success Rate: "] in the report:
    [f"{(self.passed_tests/self.total_tests)*100:.1f}%"] *)
Definition success_rate (t : BuildTester) : result string :=
  match PyFloat.int_truediv (passed_tests t) (total_tests t) with
  | inl e => inl e
  | inr q => inr (PyFloat.format_1f (PyFloat.times_100 q) ++ "%")
  end.

(** [BuildTester.generate_report]: [True] when no attempt failed *)
Definition generate_report : M Runner bool :=
  t <- get_self ;;
  _ <- eval (success_rate t) ;;
  if (failed_tests t =? 0)%nat then ret true else ret false.

End Methods.

(** the parsed command line *)
Record Args : Type := {
  arg_workspace_root : string;
  hide_warnings : bool;
  continue_on_fail : bool
}.

Section Main.
Context {os : OS}.

(** the process of [main]: the tester exists once it has been created;
    [console] holds the lines in which [main] echoes its arguments *)
Record MainState : Type := {
  tester : option BuildTester;
  main_proc : Proc;
  console : list string
}.

Definition in_proc {A} (c : M Proc A) : M MainState A :=
  fun m =>
    let (a, p) := c (main_proc m) in
    (a, {| tester := tester m; main_proc := p; console := console m |}).

(** [print(line)] *)
Definition print (line : string) : M MainState unit :=
  fun m => (inr tt, {| tester := tester m; main_proc := main_proc m;
                       console := (console m ++ [line])%list |}).

(** [tester = BuildTester(workspace_root)] *)
Definition new_tester (root : string) : M MainState unit :=
  resolved <- in_proc (path_resolve root) ;;
  fun m => (inr tt,
            {| tester := Some (init resolved); main_proc := main_proc m;
               console := console m |}).

(** [tester.method(...)]: the method runs on the object that the name
    [tester] is bound to; the name is unbound before [new_tester] *)
Definition on_tester {A} (method : M Runner A) : M MainState A :=
  fun m =>
    match tester m with
    | None =>
        (inl (Exception "NameError" "name 'tester' is not defined"), m)
    | Some obj =>
        let (a, r) := method {| self := obj; proc := main_proc m |} in
        (a, {| tester := Some (self r); main_proc := proc r;
               console := console m |})
    end.

(** a boolean inside an f-string *)
Definition str_of_bool (b : bool) : string := if b then "True" else "False".

Definition options_line (args : Args) : string :=
  "Options: warnings=" ++ (if hide_warnings args then "hidden" else "shown")
  ++ ", continue-on-fail=" ++ str_of_bool (continue_on_fail args).

(** [main]; the value is the argument of [sys.exit] *)
Definition main (args : Args) : M MainState nat :=
  let workspace_root := arg_workspace_root args in
  print ("Starting build test in: " ++ workspace_root) ;;
  print (options_line args) ;;
  let cargo_toml := path_join workspace_root "Cargo.toml" in
  present <- in_proc (path_exists cargo_toml) ;;
  if negb present then ret 1
  else
    content <- in_proc (read_text cargo_toml) ;;
    if negb (PyStr.contains "[workspace]" content) then ret 1
    else
      new_tester workspace_root ;;
      on_tester (modify_self (set_show_warnings (negb (hide_warnings args)))) ;;
      on_tester test_all_modules ;;
      success <- on_tester generate_report ;;
      ret (if success : bool then 0 else 1).

(** the exit status of the process: the argument of [sys.exit], or 1 when
    an exception reaches the top level *)
Definition exit_status (r : result nat) : nat :=
  match r with
  | inr code => code
  | inl _ => 1
  end.

Definition start (w : World) : MainState :=
  {| tester := None; main_proc := {| world := w; calls := [] |};
     console := [] |}.

End Main.

End FullRunner.

(** ** The quick probe, [test_working_modules.py] *)

Module QuickProbe.

(** the modules of [main], in order *)
Definition modules : list string :=
  [ "blinky"; "bme280-embassy"; "wifi-embassy"; "wifi-synchronous";
    "serial-console-embassy"; "mqtt-embassy"; "main-app"; "iot-common";
    "iot-container"; "iot-hal"; "iot-performance" ].

Definition binaries : list string := ["main"; "main_container"].

(** [error[:100] if error else "Unknown error"] *)
Definition short_error (error : string) : string :=
  if PyStr.truthy error then PyStr.take 100 error else "Unknown error".

Section Probe.
Context {os : OS}.

(** the handlers shared by the two build functions *)
Definition on_failure (e : exn) : option (M Proc (bool * string)) :=
  match e with
  | TimeoutExpired => Some (ret (false, "Timeout"))
  | Exception _ msg => Some (ret (false, msg))
  end.

(** [test_module_build] *)
Definition test_module_build (module : string) : M Proc (bool * string) :=
  try_except
    (result <-
       subprocess_run ["cargo"; "build"; "--release"; "-p"; module] None 120 ;;
     ret ((returncode result =? 0)%Z, cp_stderr result))
    on_failure.

(** [test_binary_build] *)
Definition test_binary_build (binary : string) : M Proc (bool * string) :=
  try_except
    (result <-
       subprocess_run ["cargo"; "build"; "--release"; "--bin"; binary]
                      None 120 ;;
     ret ((returncode result =? 0)%Z, cp_stderr result))
    on_failure.

(** the local lists of [main] and the rest of the process *)
Record Probe : Type := {
  working : list string;
  broken : list (string * string);
  probe_proc : Proc
}.

Definition in_proc {A} (c : M Proc A) : M Probe A :=
  fun s =>
    let (a, p) := c (probe_proc s) in
    (a, {| working := working s; broken := broken s; probe_proc := p |}).

(** [working.append(item)] *)
Definition working_append (item : string) : M Probe unit :=
  modify (fun s => {| working := (working s ++ [item])%list;
                      broken := broken s; probe_proc := probe_proc s |}).

(** [broken.append(item)] *)
Definition broken_append (item : string * string) : M Probe unit :=
  modify (fun s => {| working := working s;
                      broken := (broken s ++ [item])%list;
                      probe_proc := probe_proc s |}).

(** the body of the loop over the modules *)
Definition probe_module (module : string) : M Probe unit :=
  '(success, error) <- in_proc (test_module_build module) ;;
  if success : bool then working_append module
  else broken_append (module, short_error error).

(** the body of the loop over the binaries *)
Definition probe_binary (binary : string) : M Probe unit :=
  '(success, error) <- in_proc (test_binary_build binary) ;;
  if success : bool then working_append (binary ++ " (binary)")
  else broken_append (binary ++ " (binary)", short_error error).

(** [main]: [True] when nothing is broken *)
Definition main : M Probe bool :=
  modify (fun s => {| working := []; broken := [];
                      probe_proc := probe_proc s |}) ;;
  for_each modules probe_module ;;
  for_each binaries probe_binary ;;
  s <- get ;;
  ret (List.length (broken s) =? 0)%nat.

(** [sys.exit(0 if success else 1)]; an exception that reaches the top
    level ends the process with status 1 *)
Definition exit_status (r : result bool) : nat :=
  match r with
  | inr true => 0
  | inr false => 1
  | inl _ => 1
  end.

Definition start (w : World) : Probe :=
  {| working := []; broken := [];
     probe_proc := {| world := w; calls := [] |} |}.

End Probe.

End QuickProbe.

(** ** The notions of the specification *)

Import FullRunner.

(** number of records of the log whose [success] is [b] *)
Definition count_success (b : bool) (rs : list ResultRecord) : nat :=
  List.length (filter (fun r => Bool.eqb (success r) b) rs).

(** sum over the log of the length of each record's warning list *)
Definition total_warnings (rs : list ResultRecord) : nat :=
  list_sum (map (fun r => List.length (warnings r)) rs).

(** the aggregate counters are the folds over the result log *)
Record consistent (t : BuildTester) : Prop := {
  passed_is_fold : passed_tests t = count_success true (results t);
  failed_is_fold : failed_tests t = count_success false (results t);
  total_is_sum : total_tests t = passed_tests t + failed_tests t;
  total_is_length : total_tests t = List.length (results t);
  warnings_is_fold : warnings_count t = total_warnings (results t)
}.

(** what one build attempt hands to [record_result] *)
Record Attempt : Type := {
  a_description : string;
  a_success : bool;
  a_stdout : string;
  a_stderr : string
}.

Definition record_attempt (t : BuildTester) (a : Attempt) : BuildTester :=
  record_result (a_description a) (a_success a) (a_stdout a) (a_stderr a) t.

(** the tester after a sequence of calls of [record_result] *)
Definition replay (log : list Attempt) (t : BuildTester) : BuildTester :=
  fold_left record_attempt log t.

(** the record that [record_result] appends for an attempt *)
Definition record_of (a : Attempt) : ResultRecord :=
  {| description := a_description a; success := a_success a;
     stdout := a_stdout a; stderr := a_stderr a;
     warnings := detect_warnings (a_stdout a) (a_stderr a) |}.

(** an invocation of [cargo build], as opposed to [cargo clean] *)
Definition is_build_cmd (cmd : list string) : bool :=
  match cmd with
  | tool :: verb :: _ => String.eqb tool "cargo" && String.eqb verb "build"
  | _ => false
  end.

Definition is_build (c : Call) : bool := is_build_cmd (call_cmd c).

Definition build_calls (cs : list Call) : nat :=
  List.length (filter is_build cs).

Definition timeout_message : string := "Command timed out after 5 minutes".

(** the value of [run_command] for each outcome of the invocation *)
Definition run_value (outcome : result CompletedProcess)
    : bool * string * string :=
  match outcome with
  | inr cp => ((returncode cp =? 0)%Z,
               PyStr.strip (cp_stdout cp), PyStr.strip (cp_stderr cp))
  | inl TimeoutExpired => (false, "", timeout_message)
  | inl (Exception _ msg) => (false, "", "Command failed: " ++ msg)
  end.

(** the value of the build functions of the quick probe *)
Definition probe_value (outcome : result CompletedProcess) : bool * string :=
  match outcome with
  | inr cp => ((returncode cp =? 0)%Z, cp_stderr cp)
  | inl TimeoutExpired => (false, "Timeout")
  | inl (Exception _ msg) => (false, msg)
  end.

(** the process exited with code 0 *)
Definition exited_zero (outcome : result CompletedProcess) : Prop :=
  exists cp, outcome = inr cp /\ returncode cp = 0%Z.

(** the process state after one invocation *)
Definition after_call {os : OS} (cmd : list string) (cwd : option Path)
    (timeout : nat) (p : Proc) : Proc :=
  {| world := snd (os_run cmd cwd timeout (world p));
     calls := (calls p ++ [ {| call_cmd := cmd; call_cwd := cwd;
                               call_timeout := timeout |} ])%list |}.

Definition outcome_of {os : OS} (cmd : list string) (cwd : option Path)
    (timeout : nat) (p : Proc) : result CompletedProcess :=
  fst (os_run cmd cwd timeout (world p)).

(** The build steps that section 4.5 of the specification plans for one
    module, by their descriptions: none for a test-only module, the
    workspace and the module-folder build of a pure library, each binary
    that is not excluded, then each example from the workspace and each
    example from the module folder. *)
Definition planned (entry : string * ModuleConfig) : list string :=
  let (module, config) := entry in
  let library_steps :=
    if negb (nonempty (examples config)) && negb (nonempty (binaries_of config))
    then ["Workspace build: " ++ module; "Module build: " ++ module]
    else [] in
  let binary_steps :=
    map (fun binary =>
           "Workspace build: " ++ module ++ " (binary: " ++ binary ++ ")")
        (filter (fun binary => negb (String.eqb binary "main_container"))
                (binaries_of config)) in
  let workspace_examples :=
    map (fun example =>
           with_example ("Workspace build: " ++ module) (Some example))
        (examples config) in
  let folder_examples :=
    map (fun example =>
           with_example ("Module build: " ++ module) (Some example))
        (examples config) in
  if is_test_only config then []
  else (library_steps ++ binary_steps ++
        workspace_examples ++ folder_examples)%list.

Definition planned_steps (table : list (string * ModuleConfig)) : list string :=
  flat_map planned table.

(** the attempt recorded for a build that timed out *)
Definition timed_out (description : string) : Attempt :=
  {| a_description := description; a_success := false;
     a_stdout := ""; a_stderr := timeout_message |}.

(** the state in which [test_all_modules] starts *)
Definition fresh {os : OS} (root : Path) (w : World) : Runner :=
  {| self := init root; proc := {| world := w; calls := [] |} |}.

Definition success_of (v : bool * string * string) : bool := fst (fst v).
Definition stdout_of (v : bool * string * string) : string := snd (fst v).
Definition stderr_of (v : bool * string * string) : string := snd v.

(** the attempt that a build with description [d] records for the value
    [v] of [run_command] *)
Definition attempt_of (d : string) (v : bool * string * string) : Attempt :=
  {| a_description := d; a_success := success_of v;
     a_stdout := stdout_of v; a_stderr := stderr_of v |}.

Section Tracking.
Context {os : OS}.

(** A method is tracked when it returns, changes the tester only through
    calls of [record_result], and makes exactly one build invocation for
    each of them. *)
Definition tracked {A} (m : M Runner A) : Prop :=
  forall r, exists a r' log,
    m r = (inr a, r')
    /\ self r' = replay log (self r)
    /\ build_calls (calls (proc r')) =
       build_calls (calls (proc r)) + List.length log.

(** A method plays the descriptions [ds] when it returns and its effect on
    the tester is to record, in order, one timed-out attempt for each. *)
Definition plays {A} (m : M Runner A) (ds : list string) : Prop :=
  forall r, exists a r',
    m r = (inr a, r')
    /\ self r' = replay (map timed_out ds) (self r).

(** every invocation of [cargo build] times out *)
Definition builds_time_out : Prop :=
  forall cmd cwd timeout w,
    is_build_cmd cmd = true ->
    fst (os_run cmd cwd timeout w) = inl TimeoutExpired.

(** every invocation of [cargo clean] exits with code 0 *)
Definition clean_succeeds : Prop :=
  forall cwd timeout w, exited_zero (fst (os_run clean_cmd cwd timeout w)).

(** every invocation of [cargo clean] times out *)
Definition clean_times_out : Prop :=
  forall cwd timeout w,
    fst (os_run clean_cmd cwd timeout w) = inl TimeoutExpired.

(** every path exists *)
Definition directories_exist : Prop :=
  forall p w, os_exists p w = true.

(** the state [m] with the console replaced *)
Definition with_console (lines : list string) (m : MainState) : MainState :=
  {| tester := tester m; main_proc := main_proc m; console := lines |}.

(** A computation of [main] is blind to the console when what is printed
    so far changes neither its result nor what it does to the tester and
    to the process. *)
Definition console_blind {A} (c : M MainState A) : Prop :=
  forall lines m,
    c (with_console lines m) = (fst (c m), with_console lines (snd (c m))).

(** the state of the quick probe after the loop body for one module *)
Definition module_step (module : string) (s : QuickProbe.Probe)
    : QuickProbe.Probe :=
  let cmd := ["cargo"; "build"; "--release"; "-p"; module] in
  let v := probe_value (outcome_of cmd None 120 (QuickProbe.probe_proc s)) in
  if fst v
  then {| QuickProbe.working := (QuickProbe.working s ++ [module])%list;
          QuickProbe.broken := QuickProbe.broken s;
          QuickProbe.probe_proc :=
            after_call cmd None 120 (QuickProbe.probe_proc s) |}
  else {| QuickProbe.working := QuickProbe.working s;
          QuickProbe.broken :=
            (QuickProbe.broken s
               ++ [(module, QuickProbe.short_error (snd v))])%list;
          QuickProbe.probe_proc :=
            after_call cmd None 120 (QuickProbe.probe_proc s) |}.

(** the state of the quick probe after the loop body for one binary *)
Definition binary_step (binary : string) (s : QuickProbe.Probe)
    : QuickProbe.Probe :=
  let cmd := ["cargo"; "build"; "--release"; "--bin"; binary] in
  let v := probe_value (outcome_of cmd None 120 (QuickProbe.probe_proc s)) in
  let item := binary ++ " (binary)" in
  if fst v
  then {| QuickProbe.working := (QuickProbe.working s ++ [item])%list;
          QuickProbe.broken := QuickProbe.broken s;
          QuickProbe.probe_proc :=
            after_call cmd None 120 (QuickProbe.probe_proc s) |}
  else {| QuickProbe.working := QuickProbe.working s;
          QuickProbe.broken :=
            (QuickProbe.broken s
               ++ [(item, QuickProbe.short_error (snd v))])%list;
          QuickProbe.probe_proc :=
            after_call cmd None 120 (QuickProbe.probe_proc s) |}.

(** the state of [main] once both loops are done *)
Definition probed (s : QuickProbe.Probe) : QuickProbe.Probe :=
  fold_left (fun s b => binary_step b s) QuickProbe.binaries
    (fold_left (fun s m => module_step m s) QuickProbe.modules
       {| QuickProbe.working := []; QuickProbe.broken := [];
          QuickProbe.probe_proc := QuickProbe.probe_proc s |}).

(** the release build of the package exits with code 0, always *)
Definition module_builds (module : string) : Prop :=
  forall w,
    exited_zero
      (fst (os_run ["cargo"; "build"; "--release"; "-p"; module] None 120 w)).

(** the release build of the package never exits with code 0 *)
Definition module_fails (module : string) : Prop :=
  forall w,
    ~ exited_zero
      (fst (os_run ["cargo"; "build"; "--release"; "-p"; module] None 120 w)).

(** the release build of the binary exits with code 0, always *)
Definition binary_builds (binary : string) : Prop :=
  forall w,
    exited_zero
      (fst (os_run ["cargo"; "build"; "--release"; "--bin"; binary]
                   None 120 w)).

End Tracking.

(** ** Concrete environments *)

Definition completed (code : Z) (out err : string) : result CompletedProcess :=
  inr {| returncode := code; cp_stdout := out; cp_stderr := err |}.

Definition workspace_manifest : string := "[workspace]".

(** every process invocation times out *)
Definition always_timeout : OS :=
  {| World := unit;
     os_run := fun _ _ _ w => (inl TimeoutExpired, w);
     os_exists := fun _ _ => true;
     os_resolve := fun s _ => s;
     os_read := fun _ _ => inr workspace_manifest |}.

Definition is_clean (cmd : list string) : bool :=
  if list_eq_dec string_dec cmd FullRunner.clean_cmd then true else false.

(** [cargo clean] succeeds, every other invocation times out *)
Definition builds_timeout : OS :=
  {| World := unit;
     os_run := fun cmd _ _ w =>
       if is_clean cmd then (completed 0 "" "", w)
       else (inl TimeoutExpired, w);
     os_exists := fun _ _ => true;
     os_resolve := fun s _ => s;
     os_read := fun _ _ => inr workspace_manifest |}.

Definition no_cargo : string :=
  "[Errno 2] No such file or directory: 'cargo'".

(** the build tool is not installed: starting it raises *)
Definition cargo_missing : OS :=
  {| World := unit;
     os_run := fun _ _ _ w => (inl (Exception "FileNotFoundError" no_cargo), w);
     os_exists := fun _ _ => true;
     os_resolve := fun s _ => s;
     os_read := fun _ _ => inr workspace_manifest |}.

(** every build succeeds, but only the manifest exists below the root *)
Definition missing_dirs : OS :=
  {| World := unit;
     os_run := fun _ _ _ w => (completed 0 "" "", w);
     os_exists := fun p _ => String.eqb p "/ws/Cargo.toml";
     os_resolve := fun s _ => s;
     os_read := fun _ _ => inr workspace_manifest |}.

Definition hal_error : string := "error: could not compile `iot-hal`".

(** the package [iot-hal] does not compile, everything else builds; the
    world counts the invocations *)
Definition hal_broken : OS :=
  {| World := nat;
     os_run := fun cmd _ _ w =>
       if list_eq_dec string_dec cmd
            ["cargo"; "build"; "--release"; "-p"; "iot-hal"]
       then (completed 101 "" hal_error, S w)
       else (completed 0 "" "", S w);
     os_exists := fun _ _ => true;
     os_resolve := fun s _ => s;
     os_read := fun _ _ => inr workspace_manifest |}.

(** a warning as the compiler prints it *)
Definition cargo_warning : string :=
  "warning: unused variable: `x`" ++ PyStr.nl ++
  "  = note: `#[warn(unused_variables)]` on by default".

(** every build succeeds with one compiler warning *)
Definition warns : OS :=
  {| World := unit;
     os_run := fun _ _ _ w => (completed 0 "" cargo_warning, w);
     os_exists := fun _ _ => true;
     os_resolve := fun s _ => s;
     os_read := fun _ _ => inr workspace_manifest |}.

(** a tester with the given counters *)
Definition counted (total passed failed : nat) : BuildTester :=
  set_failed_tests failed
    (set_passed_tests passed (set_total_tests total (init "/ws"))).

(** a descriptor with the test-only marker that declares targets *)
Definition marked_with_targets : ModuleConfig :=
  {| examples := ["demo"; "bench"]; features := Some "full";
     features_examples := None; binaries := Some ["tool"];
     test_only := Some true |}.

(** the process at its start in the world [w] *)
Definition boot (os : OS) (w : @World os) : @Proc os :=
  {| world := w; calls := [] |}.

Definition default_args : FullRunner.Args :=
  {| FullRunner.arg_workspace_root := "/ws";
     FullRunner.hide_warnings := false;
     FullRunner.continue_on_fail := false |}.

(** the counters of the tester that [main] leaves behind:
    total, passed, failed, warnings *)
Definition counters {os : OS} (m : MainState)
    : option (nat * nat * nat * nat) :=
  option_map
    (fun t => (total_tests t, passed_tests t, failed_tests t, warnings_count t))
    (tester m).

(** a full run from the workspace [/ws] with the default options:
    the exit status and the counters *)
Definition full_run (os : OS) (w : @World os)
    : nat * option (nat * nat * nat * nat) :=
  let out := @main os default_args (@start os w) in
  (exit_status (fst out), counters (snd out)).

(** ** Further notions *)


(** the invocation that [clean_workspace] makes *)
Definition clean_call (root : Path) : Call :=
  {| call_cmd := clean_cmd; call_cwd := Some root; call_timeout := 300 |}.

(** The build cache is clean when the last invocation was [cargo clean].
    One invocation, from a cache that is clean or not: a clean leaves it
    clean, anything else needs a clean cache and leaves it used. *)
Definition cache_step (cleaned : bool) (c : Call) : option bool :=
  if is_clean (call_cmd c) then Some true
  else if cleaned then Some false
  else None.

Fixpoint cache_run (cleaned : bool) (tr : list Call) : option bool :=
  match tr with
  | [] => Some cleaned
  | c :: rest =>
      match cache_step cleaned c with
      | Some s => cache_run s rest
      | None => None
      end
  end.

(** An invocation of the full runner as it should be: five minutes of
    timeout, and either the clean in the workspace root or a release build
    in the root or in the folder of a module. *)
Definition well_formed_call (root : Path) (names : list string) (c : Call)
    : Prop :=
  call_timeout c = 300
  /\ (c = clean_call root
      \/ (is_build c = true
          /\ In "--release" (call_cmd c)
          /\ (call_cwd c = Some root
              \/ exists module,
                   In module names
                   /\ call_cwd c = Some (path_join root module)))).

Section Traces.
Context {os : OS}.

(** A method is traced when, on a tester of the workspace [root], it
    returns and the invocations it adds are well formed and start every
    build from a clean cache; [cleaned] is the cache before, [Q] holds of
    the cache after. *)
Definition traced (root : Path) (names : list string) {A}
    (m : M Runner A) (cleaned : bool) (Q : bool -> Prop) : Prop :=
  forall r,
    workspace_root (self r) = root ->
    exists a r' tr s',
      m r = (inr a, r')
      /\ workspace_root (self r') = root
      /\ calls (proc r') = (calls (proc r) ++ tr)%list
      /\ cache_run cleaned tr = Some s'
      /\ Q s'
      /\ Forall (well_formed_call root names) tr.

End Traces.

Section Main_notions.
Context {os : OS}.

(** the state [m] once [main] has echoed its arguments *)
Definition echoed (args : Args) (m : MainState) : MainState :=
  with_console
    (List.app (console m)
       ["Starting build test in: " ++ arg_workspace_root args;
        options_line args])
    m.

(** the path of the manifest that [main] looks for *)
Definition manifest (args : Args) : Path :=
  path_join (arg_workspace_root args) "Cargo.toml".

(** the tester that [main] creates, with the process it runs in *)
Definition first_state (args : Args) (m : MainState) : Runner :=
  {| self := set_show_warnings (negb (hide_warnings args))
               (init (os_resolve (arg_workspace_root args)
                                 (world (main_proc m))));
     proc := main_proc m |}.

(** the state [r] with the display option of its tester set to [b] *)
Definition shown (b : bool) (r : Runner) : Runner :=
  {| self := set_show_warnings b (self r); proc := proc r |}.

(** A method is blind to the display option when the option changes
    neither its result nor what it does to the tester and the process. *)
Definition show_blind {A} (m : M Runner A) : Prop :=
  forall b r, m (shown b r) = (fst (m r), shown b (snd (m r))).

End Main_notions.

(** a package that is not a workspace: the manifest exists and declares a
    package only *)
Definition plain_package : OS :=
  {| World := unit;
     os_run := fun _ _ _ w => (completed 0 "" "", w);
     os_exists := fun _ _ => true;
     os_resolve := fun s _ => s;
     os_read := fun _ _ => inr "[package]" |}.

(** [l1] is [l2] with some elements left out *)
Inductive subsequence {A : Type} : list A -> list A -> Prop :=
| subsequence_nil : subsequence [] []
| subsequence_skip (x : A) (l1 l2 : list A) :
    subsequence l1 l2 -> subsequence l1 (x :: l2)
| subsequence_keep (x : A) (l1 l2 : list A) :
    subsequence l1 l2 -> subsequence (x :: l1) (x :: l2).

Section Following.
Context {os : OS}.

(** A method follows the descriptions [ds] up to [R] when it returns and
    its effect on the tester is to record attempts whose descriptions,
    in order, are related to [ds] by [R]. *)
Definition follows (R : list string -> list string -> Prop) {A}
    (m : M Runner A) (ds : list string) : Prop :=
  forall r, exists a r' log,
    m r = (inr a, r')
    /\ self r' = replay log (self r)
    /\ R (map a_description log) ds.

End Following.

(** [s.replace(old, new)] for a pattern [old] that is not empty: the
    occurrences are replaced from the left and do not overlap; [skip]
    counts the characters of a matched occurrence still to pass *)
Fixpoint replace_from (old new : string) (skip : nat) (s : string) : string :=
  match s with
  | EmptyString => EmptyString
  | String c r =>
      match skip with
      | S k => replace_from old new k r
      | O =>
          if PyStr.startswith old s
          then new ++ replace_from old new (String.length old - 1) r
          else String c (replace_from old new 0 r)
      end
  end.

(** [s.replace("", new)]: [new] before every character and at the end *)
Fixpoint replace_empty (new s : string) : string :=
  match s with
  | EmptyString => new
  | String c r => new ++ String c (replace_empty new r)
  end.

(** [s.replace(old, new)] *)
Definition str_replace (old new s : string) : string :=
  match old with
  | EmptyString => replace_empty new s
  | _ => replace_from old new 0 s
  end.

(** the test of the deployment recommendation of the quick probe:
    ["main" in [w.replace(" (binary)", "") for w in working]] *)
Definition deployable (working : list string) : bool :=
  existsb (String.eqb "main") (map (str_replace " (binary)" "") working).

(** an invocation of the quick probe: no working directory, two minutes *)
Definition probe_call (cmd : list string) : Call :=
  {| call_cmd := cmd; call_cwd := None; call_timeout := 120 |}.

(** the commands of the quick probe, in order *)
Definition probe_commands : list (list string) :=
  List.app
    (map (fun module => ["cargo"; "build"; "--release"; "-p"; module])
         QuickProbe.modules)
    (map (fun binary => ["cargo"; "build"; "--release"; "--bin"; binary])
         QuickProbe.binaries).

(** the names under which the quick probe lists what it builds *)
Definition probe_items : list string :=
  List.app QuickProbe.modules
           (map (fun binary => binary ++ " (binary)") QuickProbe.binaries).

(** the names that the quick probe has classified so far *)
Definition classified {os : OS} (s : QuickProbe.Probe) : list string :=
  (QuickProbe.working s ++ map fst (QuickProbe.broken s))%list.

(** the error text of an entry of the broken list is not empty and has
    at most 100 characters *)
Definition bounded_error (item : string * string) : Prop :=
  1 <= String.length (snd item) <= 100.

(** [s * n] *)
Fixpoint str_times (s : string) (n : nat) : string :=
  match n with
  | O => EmptyString
  | S k => s ++ str_times s k
  end.

Definition pilot_ready : string :=
  "🎉 ALL TESTS PASSED - SYSTEM IS PILOT READY!".

Definition passed_with_warnings : string :=
  "⚠️  ALL TESTS PASSED BUT WITH WARNINGS".

Definition build_issues : string :=
  "⚠️  SYSTEM HAS BUILD ISSUES - REQUIRES ATTENTION".

(** The end of [generate_report], from the rule under the lists of
    attempts on: the arguments of its calls of [print], in order, and the
    value it returns. *)
Definition verdict (t : BuildTester) : list string * bool :=
  let rule := str_times "=" 80 in
  let opening := PyStr.nl ++ rule in
  if (failed_tests t =? 0)%nat
  then
    if (warnings_count t =? 0)%nat
    then ([ opening;
            pilot_ready;
            "✅ All modules build successfully from workspace and module folders";
            "✅ Zero warnings detected";
            "✅ Portable-atomic conflicts resolved";
            rule ], true)
    else ([ opening;
            passed_with_warnings;
            "✅ All modules build successfully from workspace and module folders";
            "⚠️  " ++ PyStr.str_of_nat (warnings_count t)
              ++ " warnings detected - review recommended";
            "✅ Portable-atomic conflicts resolved";
            rule ], true)
  else ([ opening; build_issues ], false).

(** ** Sample runs *)

Example scan_cargo_warning :
  detect_warnings "" cargo_warning =
  [ "warning: unused variable: `x`";
    "= note: `#[warn(unused_variables)]` on by default" ].
Proof. reflexivity. Qed.

Example scan_clean_output :
  detect_warnings "Compiling blinky v0.1.0" "Finished release" = [].
Proof. reflexivity. Qed.

Example rate_one_third :
  success_rate (counted 3 1 2) = inr "33.3%".
Proof. vm_compute. reflexivity. Qed.

Example rate_one_eighth_of_a_percent :
  success_rate (counted 800 1 799) = inr "0.1%".
Proof. vm_compute. reflexivity. Qed.

Example run_with_warnings :
  full_run warns tt = (0, Some (41, 41, 0, 82)).
Proof. vm_compute. reflexivity. Qed.

Example run_with_build_timeouts :
  full_run builds_timeout tt = (1, Some (41, 0, 41, 0)).
Proof. vm_compute. reflexivity. Qed.

Example run_without_module_directories :
  full_run missing_dirs tt = (0, Some (21, 21, 0, 0)).
Proof. vm_compute. reflexivity. Qed.

(** ** The warning scanner *)

Lemma scan_line_spec (patterns : list string) (line : string)
    (ws : list string) :
  scan_line patterns line ws =
  if existsb (fun p => PyStr.contains p (PyStr.lower line)) patterns
  then (ws ++ [PyStr.strip line])%list else ws.
Proof.
  induction patterns as [|p ps IH]; simpl.
  - reflexivity.
  - destruct (PyStr.contains p (PyStr.lower line)); simpl.
    + reflexivity.
    + exact IH.
Qed.

Lemma scan_lines_spec (lines ws : list string) :
  fold_left (fun acc line => scan_line warning_patterns line acc) lines ws =
  (ws ++ map PyStr.strip (filter is_warning_line lines))%list.
Proof.
  revert ws.
  induction lines as [|l ls IH]; intros ws; cbn [fold_left filter map].
  - now rewrite app_nil_r.
  - rewrite IH, scan_line_spec.
    fold (is_warning_line l).
    destruct (is_warning_line l); cbn [map].
    + now rewrite <- app_assoc.
    + reflexivity.
Qed.

Lemma filter_none {A} (f : A -> bool) (xs : list A) :
  (forall x, In x xs -> f x = false) -> filter f xs = [].
Proof.
  induction xs as [|x r IH]; intros H; cbn [filter].
  - reflexivity.
  - rewrite (H x (or_introl eq_refl)).
    apply IH. intros y Hy. apply H. now right.
Qed.

(** C2 (amended): the scanner returns, in line order, the stripped form of
    every line of [stdout + "\n" + stderr] whose lowercased form contains
    at least one of the six markers, one entry per matching line however
    many markers it contains; the number of warnings is the number of
    matching lines, and the output is empty exactly when no line matches. *)
Theorem detect_warnings_stripped_matching_lines (stdout stderr : string) :
  detect_warnings stdout stderr =
    map PyStr.strip (filter is_warning_line (combined_lines stdout stderr))
  /\ List.length (detect_warnings stdout stderr) =
       List.length (filter is_warning_line (combined_lines stdout stderr))
  /\ (detect_warnings stdout stderr = [] <->
      forall line, In line (combined_lines stdout stderr) ->
                   is_warning_line line = false).
Proof.
  assert (E : detect_warnings stdout stderr =
              map PyStr.strip
                  (filter is_warning_line (combined_lines stdout stderr))).
  { unfold detect_warnings, combined_lines. now rewrite scan_lines_spec. }
  split; [exact E|]. split.
  - rewrite E. apply length_map.
  - rewrite E. split.
    + intros H line Hin.
      destruct (is_warning_line line) eqn:W; [|reflexivity].
      assert (Hf : In line (filter is_warning_line
                                   (combined_lines stdout stderr)))
        by (apply filter_In; now split).
      apply map_eq_nil in H. rewrite H in Hf. destruct Hf.
    + intros H. now rewrite (filter_none _ _ H).
Qed.

(** C2 as stated fails: an indented matching line is returned without its
    indentation, so it is not a line of the combined text; and two equal
    matching lines count twice, not once. *)
Lemma detect_warnings_not_the_lines :
  detect_warnings "" cargo_warning <> spec_warning_lines "" cargo_warning
  /\ List.length (detect_warnings "unused" "unused") <>
     count_distinct (spec_warning_lines "unused" "unused").
Proof.
  split; intros H; vm_compute in H; discriminate H.
Qed.

(** ** The command runner *)

Section Runner_facts.
Context {os : OS}.

Lemma run_command_eq (cmd : list string) (cwd : Path) (description : string)
    (p : Proc) :
  run_command cmd cwd description p =
  (inr (run_value (outcome_of cmd (Some cwd) 300 p)),
   after_call cmd (Some cwd) 300 p).
Proof.
  unfold run_command, try_except, bind, subprocess_run, outcome_of, after_call.
  destruct (os_run cmd (Some cwd) 300 (world p)) as [[e|cp] w]; cbn.
  - destruct e; reflexivity.
  - reflexivity.
Qed.

Lemma probe_module_build_eq (module : string) (p : Proc) :
  QuickProbe.test_module_build module p =
  (inr (probe_value
          (outcome_of ["cargo"; "build"; "--release"; "-p"; module]
                      None 120 p)),
   after_call ["cargo"; "build"; "--release"; "-p"; module] None 120 p).
Proof.
  unfold QuickProbe.test_module_build, try_except, bind, subprocess_run,
    outcome_of, after_call.
  destruct (os_run _ None 120 (world p)) as [[e|cp] w]; cbn.
  - destruct e; reflexivity.
  - reflexivity.
Qed.

Lemma probe_binary_build_eq (binary : string) (p : Proc) :
  QuickProbe.test_binary_build binary p =
  (inr (probe_value
          (outcome_of ["cargo"; "build"; "--release"; "--bin"; binary]
                      None 120 p)),
   after_call ["cargo"; "build"; "--release"; "--bin"; binary] None 120 p).
Proof.
  unfold QuickProbe.test_binary_build, try_except, bind, subprocess_run,
    outcome_of, after_call.
  destruct (os_run _ None 120 (world p)) as [[e|cp] w]; cbn.
  - destruct e; reflexivity.
  - reflexivity.
Qed.

Lemma run_value_success (outcome : result CompletedProcess) :
  fst (fst (run_value outcome)) = true <-> exited_zero outcome.
Proof.
  unfold exited_zero.
  destruct outcome as [[|cls msg]|cp]; cbn.
  - split; [discriminate|]. intros [cp [H _]]. discriminate H.
  - split; [discriminate|]. intros [cp [H _]]. discriminate H.
  - rewrite Z.eqb_eq. split.
    + intros H. now exists cp.
    + intros [cp' [H1 H2]]. now inversion H1; subst.
Qed.

Lemma probe_value_success (outcome : result CompletedProcess) :
  fst (probe_value outcome) = true <-> exited_zero outcome.
Proof.
  unfold exited_zero.
  destruct outcome as [[|cls msg]|cp]; cbn.
  - split; [discriminate|]. intros [cp [H _]]. discriminate H.
  - split; [discriminate|]. intros [cp [H _]]. discriminate H.
  - rewrite Z.eqb_eq. split.
    + intros H. now exists cp.
    + intros [cp' [H1 H2]]. now inversion H1; subst.
Qed.

End Runner_facts.

(** C3 (amended): the command runner of either script returns a value for
    every outcome of the invocation and never raises. In the full runner
    (timeout 300) the value is [(returncode == 0, stripped stdout, stripped
    stderr)] when the process completes, [(False, "", "Command timed out
    after 5 minutes")] on a timeout and [(False, "", "Command failed: " +
    message)] on any other exception. In the quick probe (timeout 120) the
    value is a pair: [(returncode == 0, stderr)], [(False, "Timeout")] or
    [(False, message)]. In both, success is true exactly when the process
    exited with code 0. *)
Theorem command_runner_never_raises (os : OS) (cmd : list string) (cwd : Path)
    (description module binary : string) (p : Proc) :
  (fst (run_command cmd cwd description p) =
     inr (run_value (outcome_of cmd (Some cwd) 300 p))
   /\ (fst (fst (run_value (outcome_of cmd (Some cwd) 300 p))) = true <->
       exited_zero (outcome_of cmd (Some cwd) 300 p)))
  /\ (fst (QuickProbe.test_module_build module p) =
        inr (probe_value (outcome_of
               ["cargo"; "build"; "--release"; "-p"; module] None 120 p))
      /\ (fst (probe_value (outcome_of
                 ["cargo"; "build"; "--release"; "-p"; module] None 120 p))
            = true <->
          exited_zero (outcome_of
                 ["cargo"; "build"; "--release"; "-p"; module] None 120 p)))
  /\ (fst (QuickProbe.test_binary_build binary p) =
        inr (probe_value (outcome_of
               ["cargo"; "build"; "--release"; "--bin"; binary] None 120 p))
      /\ (fst (probe_value (outcome_of
                 ["cargo"; "build"; "--release"; "--bin"; binary] None 120 p))
            = true <->
          exited_zero (outcome_of
                 ["cargo"; "build"; "--release"; "--bin"; binary] None 120 p))).
Proof.
  repeat split.
  - now rewrite run_command_eq.
  - apply run_value_success.
  - apply run_value_success.
  - now rewrite probe_module_build_eq.
  - apply probe_value_success.
  - apply probe_value_success.
  - now rewrite probe_binary_build_eq.
  - apply probe_value_success.
  - apply probe_value_success.
Qed.

(** C3 as stated fails: when the tool cannot be started, the stderr
    component of the full runner's result is not the exception message but
    the message behind the prefix ["Command failed: "]. *)
Lemma run_command_prefixes_the_message :
  fst (@run_command cargo_missing clean_cmd "/ws" "Clean workspace"
         (boot cargo_missing tt))
    = inr (false, "", "Command failed: " ++ no_cargo)
  /\ fst (@run_command cargo_missing clean_cmd "/ws" "Clean workspace"
            (boot cargo_missing tt))
    <> inr (false, "", no_cargo).
Proof.
  split.
  - reflexivity.
  - intros H. vm_compute in H. discriminate H.
Qed.

(** ** The methods of the tester, as equations *)

Section Method_facts.
Context {os : OS}.

Lemma clean_workspace_eq (r : Runner) :
  clean_workspace r =
  (inr (success_of (run_value
          (outcome_of clean_cmd (Some (workspace_root (self r))) 300
                      (proc r)))),
   {| self := self r;
      proc := after_call clean_cmd (Some (workspace_root (self r))) 300
                         (proc r) |}).
Proof.
  unfold clean_workspace, bind, get_self, lift_proc, ret.
  rewrite run_command_eq.
  destruct (run_value _) as [[s out] err]. reflexivity.
Qed.

Lemma test_workspace_build_eq (module : string)
    (example features : option string) (r : Runner) :
  let cmd := workspace_cmd module example features in
  let d := with_example ("Workspace build: " ++ module) example in
  let cwd := Some (workspace_root (self r)) in
  let v := run_value (outcome_of cmd cwd 300 (proc r)) in
  test_workspace_build module example features r =
  (inr (success_of v),
   {| self := record_attempt (self r) (attempt_of d v);
      proc := after_call cmd cwd 300 (proc r) |}).
Proof.
  cbv zeta.
  unfold test_workspace_build, bind, get_self, lift_proc, modify_self, ret.
  rewrite run_command_eq.
  destruct (run_value _) as [[s out] err]. reflexivity.
Qed.

Lemma test_module_build_eq (module : string)
    (example features : option string) (r : Runner) :
  let cmd := module_cmd example features in
  let d := with_example ("Module build: " ++ module) example in
  let module_path := path_join (workspace_root (self r)) module in
  let v := run_value (outcome_of cmd (Some module_path) 300 (proc r)) in
  test_module_build module example features r =
  if os_exists module_path (world (proc r))
  then (inr (success_of v),
        {| self := record_attempt (self r) (attempt_of d v);
           proc := after_call cmd (Some module_path) 300 (proc r) |})
  else (inr false, r).
Proof.
  cbv zeta.
  unfold test_module_build, bind, get_self, lift_proc, path_exists,
    modify_self, ret.
  destruct (os_exists _ (world (proc r))); cbn.
  - rewrite run_command_eq.
    destruct (run_value _) as [[s out] err]. reflexivity.
  - destruct r as [t p]; destruct p; reflexivity.
Qed.

End Method_facts.

(** ** The counters and the result log *)

Lemma count_success_app (b : bool) (rs1 rs2 : list ResultRecord) :
  count_success b (rs1 ++ rs2) = count_success b rs1 + count_success b rs2.
Proof.
  unfold count_success. now rewrite filter_app, length_app.
Qed.

Lemma total_warnings_app (rs1 rs2 : list ResultRecord) :
  total_warnings (rs1 ++ rs2) = total_warnings rs1 + total_warnings rs2.
Proof.
  unfold total_warnings. now rewrite map_app, list_sum_app.
Qed.

Lemma record_result_results (d : string) (s : bool) (out err : string)
    (t : BuildTester) :
  results (record_result d s out err t) =
  (results t ++ [ {| description := d; success := s; stdout := out;
                     stderr := err;
                     warnings := detect_warnings out err |} ])%list.
Proof.
  unfold record_result.
  destruct (nonempty (detect_warnings out err)), s; reflexivity.
Qed.

Lemma record_result_consistent (d : string) (s : bool) (out err : string)
    (t : BuildTester) :
  consistent t -> consistent (record_result d s out err t).
Proof.
  intros [Hp Hf Ht Hl Hw].
  assert (Hlen : (if nonempty (detect_warnings out err)
                  then warnings_count t + List.length (detect_warnings out err)
                  else warnings_count t)
                 = warnings_count t + List.length (detect_warnings out err)).
  { destruct (detect_warnings out err); cbn; lia. }
  constructor; rewrite ?record_result_results,
    ?count_success_app, ?total_warnings_app, ?length_app;
    unfold record_result;
    destruct (nonempty (detect_warnings out err)) eqn:N, s;
    cbn in *; unfold count_success, total_warnings in *; cbn; lia.
Qed.

Lemma init_consistent (root : Path) : consistent (init root).
Proof. constructor; reflexivity. Qed.

Lemma replay_cons (a : Attempt) (log : list Attempt) (t : BuildTester) :
  replay (a :: log) t = replay log (record_attempt t a).
Proof. reflexivity. Qed.

Lemma replay_consistent (log : list Attempt) (t : BuildTester) :
  consistent t -> consistent (replay log t).
Proof.
  revert t. induction log as [|a log IH]; intros t H.
  - exact H.
  - rewrite replay_cons. apply IH. now apply record_result_consistent.
Qed.

Lemma replay_results (log : list Attempt) (t : BuildTester) :
  results (replay log t) = (results t ++ map record_of log)%list.
Proof.
  revert t. induction log as [|a log IH]; intros t.
  - cbn. now rewrite app_nil_r.
  - rewrite replay_cons, IH. unfold record_attempt.
    rewrite record_result_results. cbn [map]. now rewrite <- app_assoc.
Qed.

Lemma replay_app (l1 l2 : list Attempt) (t : BuildTester) :
  replay (l1 ++ l2) t = replay l2 (replay l1 t).
Proof. apply fold_left_app. Qed.

Lemma record_result_frame (d : string) (s : bool) (out err : string)
    (t : BuildTester) :
  workspace_root (record_result d s out err t) = workspace_root t
  /\ modules (record_result d s out err t) = modules t
  /\ show_warnings (record_result d s out err t) = show_warnings t.
Proof.
  unfold record_result.
  destruct (nonempty (detect_warnings out err)), s; repeat split.
Qed.

Lemma replay_frame (log : list Attempt) (t : BuildTester) :
  workspace_root (replay log t) = workspace_root t
  /\ modules (replay log t) = modules t.
Proof.
  revert t. induction log as [|a log IH]; intros t.
  - now split.
  - rewrite replay_cons.
    destruct (IH (record_attempt t a)) as [H1 H2].
    destruct (record_result_frame (a_description a) (a_success a)
                (a_stdout a) (a_stderr a) t) as [F1 [F2 _]].
    unfold record_attempt in *. split; congruence.
Qed.

(** ** Every method is tracked *)

Section Tracking_facts.
Context {os : OS}.

Lemma build_calls_snoc (cs : list Call) (c : Call) :
  build_calls (cs ++ [c]) = build_calls cs + (if is_build c then 1 else 0).
Proof.
  unfold build_calls. rewrite filter_app, length_app. cbn [filter].
  destruct (is_build c); reflexivity.
Qed.

Lemma workspace_cmd_is_build (module : string)
    (example features : option string) (cwd : option Path) (timeout : nat) :
  is_build {| call_cmd := workspace_cmd module example features;
              call_cwd := cwd; call_timeout := timeout |} = true.
Proof.
  unfold workspace_cmd.
  destruct (given example), (given features); reflexivity.
Qed.

Lemma module_cmd_is_build (example features : option string)
    (cwd : option Path) (timeout : nat) :
  is_build {| call_cmd := module_cmd example features;
              call_cwd := cwd; call_timeout := timeout |} = true.
Proof.
  unfold module_cmd.
  destruct (given example), (given features); reflexivity.
Qed.

Lemma tracked_ret {A} (a : A) : tracked (ret a).
Proof.
  intros r. exists a, r, []. cbn. repeat split. lia.
Qed.

Lemma tracked_bind {A B} (c : M Runner A) (k : A -> M Runner B) :
  tracked c -> (forall a, tracked (k a)) -> tracked (bind c k).
Proof.
  intros Hc Hk r.
  destruct (Hc r) as (a & r1 & l1 & E1 & S1 & C1).
  destruct (Hk a r1) as (b & r2 & l2 & E2 & S2 & C2).
  exists b, r2, (l1 ++ l2)%list.
  unfold bind. rewrite E1, E2. split; [reflexivity|]. split.
  - now rewrite replay_app, <- S1.
  - rewrite length_app. lia.
Qed.

Lemma tracked_for_each {A} (xs : list A) (body : A -> M Runner unit) :
  (forall x, tracked (body x)) -> tracked (for_each xs body).
Proof.
  intros H. induction xs as [|x xs IH]; cbn [for_each].
  - apply tracked_ret.
  - apply tracked_bind; [apply H | intros _; exact IH].
Qed.

Lemma tracked_get_self : tracked get_self.
Proof.
  intros r. exists (self r), r, []. cbn. repeat split. lia.
Qed.

Lemma tracked_clean : tracked clean_workspace.
Proof.
  intros r. rewrite clean_workspace_eq.
  eexists _, _, []. split; [reflexivity|]. cbn [self proc replay fold_left].
  split; [reflexivity|].
  unfold after_call; cbn [calls]. rewrite build_calls_snoc. reflexivity.
Qed.

Lemma tracked_workspace_build (module : string)
    (example features : option string) :
  tracked (test_workspace_build module example features).
Proof.
  intros r. rewrite test_workspace_build_eq.
  eexists _, _, [_]. split; [reflexivity|]. cbn [self proc].
  split; [reflexivity|].
  unfold after_call; cbn [calls].
  now rewrite build_calls_snoc, workspace_cmd_is_build.
Qed.

Lemma tracked_module_build (module : string)
    (example features : option string) :
  tracked (test_module_build module example features).
Proof.
  intros r. rewrite test_module_build_eq.
  destruct (os_exists _ _).
  - eexists _, _, [_]. split; [reflexivity|]. cbn [self proc].
    split; [reflexivity|].
    unfold after_call; cbn [calls].
    now rewrite build_calls_snoc, module_cmd_is_build.
  - exists false, r, []. cbn. repeat split. lia.
Qed.

Lemma test_binary_eq (module binary : string) (r : Runner) :
  let cmd := ["cargo"; "build"; "--release"; "--bin"; binary] in
  let d := "Workspace build: " ++ module ++ " (binary: " ++ binary ++ ")" in
  let cwd := Some (workspace_root (self r)) in
  let r1 := {| self := self r;
               proc := after_call clean_cmd cwd 300 (proc r) |} in
  let v := run_value (outcome_of cmd cwd 300 (proc r1)) in
  test_binary module binary r =
  if String.eqb binary "main_container" then (inr tt, r)
  else (inr tt,
        {| self := record_attempt (self r) (attempt_of d v);
           proc := after_call cmd cwd 300 (proc r1) |}).
Proof.
  cbv zeta. unfold test_binary.
  destruct (String.eqb binary "main_container"); [reflexivity|].
  unfold bind at 1. rewrite clean_workspace_eq.
  unfold bind, get_self, lift_proc, modify_self. cbn [self proc].
  rewrite run_command_eq.
  destruct (run_value _) as [[s out] err]. reflexivity.
Qed.

Lemma tracked_binary (module binary : string) :
  tracked (test_binary module binary).
Proof.
  intros r. rewrite test_binary_eq.
  destruct (String.eqb binary "main_container").
  - exists tt, r, []. cbn. repeat split. lia.
  - eexists _, _, [_]. split; [reflexivity|]. cbn [self proc].
    split; [reflexivity|].
    unfold after_call; cbn [calls].
    rewrite !build_calls_snoc. cbn. lia.
Qed.

Ltac track :=
  repeat first
    [ apply tracked_ret
    | apply tracked_clean
    | apply tracked_workspace_build
    | apply tracked_module_build
    | apply tracked_binary
    | apply tracked_get_self
    | apply tracked_for_each; intros ?
    | apply tracked_bind; [|intros ?]
    | match goal with
      | |- tracked (if ?b then _ else _) => destruct b
      end ].

Lemma tracked_one_module (entry : string * ModuleConfig) :
  tracked (test_one_module entry).
Proof.
  destruct entry as [module config]. unfold test_one_module. track.
Qed.

Lemma tracked_all_modules : tracked test_all_modules.
Proof.
  unfold test_all_modules.
  apply tracked_bind; [apply tracked_get_self|].
  intros t. apply tracked_for_each. apply tracked_one_module.
Qed.

End Tracking_facts.

(** C1: after any sequence of calls of [record_result] on a new tester the
    counters are the folds over the result log (passed and failed count
    the records by [success], total is their sum and the length of the
    log, the warning count is the sum of the lengths of the warning lists)
    and the log holds exactly one record per call, in order. The full run
    changes the tester only through such calls, one for each build
    invocation it makes. *)
Theorem counters_equal_folds (os : OS) (root : Path) (w : World)
    (log : list Attempt) :
  (consistent (replay log (init root))
   /\ results (replay log (init root)) = map record_of log)
  /\ consistent (self (snd (test_all_modules (fresh root w))))
  /\ exists ran : list Attempt,
       fst (test_all_modules (fresh root w)) = inr tt
       /\ self (snd (test_all_modules (fresh root w))) = replay ran (init root)
       /\ List.length ran =
          build_calls (calls (proc (snd (test_all_modules (fresh root w))))).
Proof.
  destruct (tracked_all_modules (fresh root w))
    as (a & r' & ran & E & S & C).
  rewrite E. cbn [fst snd]. split; [split|split].
  - apply replay_consistent, init_consistent.
  - now rewrite replay_results.
  - rewrite S. apply replay_consistent, init_consistent.
  - exists ran. destruct a.
    split; [reflexivity|]. split; [exact S|].
    rewrite C. reflexivity.
Qed.

(** ** Skipped steps *)

(** C10: when the module's directory does not exist below the workspace
    root, [test_module_build] returns [False] and leaves the whole state as
    it was: no command is invoked, no record is appended, no counter
    changes. *)
Theorem missing_module_dir_records_nothing (os : OS) (module : string)
    (example features : option string) (r : Runner) :
  os_exists (path_join (workspace_root (self r)) module) (world (proc r))
    = false ->
  test_module_build module example features r = (inr false, r).
Proof.
  intros H. rewrite test_module_build_eq. cbv zeta. now rewrite H.
Qed.

(** C10 in a workspace that holds the manifest and no module directory:
    the module-folder build of [blinky] changes nothing. *)
Lemma missing_module_dir_witness :
  @os_exists missing_dirs (path_join "/ws" "blinky") tt = false
  /\ @test_module_build missing_dirs "blinky" None None
       (@fresh missing_dirs "/ws" tt)
     = (inr false, @fresh missing_dirs "/ws" tt).
Proof.
  split.
  - reflexivity.
  - apply (@missing_module_dir_records_nothing missing_dirs). reflexivity.
Defined.

Section Loop_facts.
Context {os : OS}.

Lemma for_each_returns {A} (xs : list A) (body : A -> M Runner unit)
    (r : Runner) :
  (forall x, tracked (body x)) -> fst (for_each xs body r) = inr tt.
Proof.
  intros H.
  destruct (tracked_for_each xs body H r) as ([] & r' & l & E & _).
  now rewrite E.
Qed.

Lemma test_one_module_after_clean (module : string) (config : ModuleConfig)
    (r : Runner) :
  fst (clean_workspace r) = inr true ->
  is_test_only config = true ->
  test_one_module (module, config) r = (inr tt, snd (clean_workspace r)).
Proof.
  intros Hc Ht. unfold test_one_module, bind at 1.
  destruct (clean_workspace r) as [[e|b] r1]; cbn in Hc; [discriminate|].
  inversion Hc; subst. cbn. now rewrite Ht.
Qed.

Lemma test_one_module_clean_failed (entry : string * ModuleConfig)
    (r : Runner) :
  fst (clean_workspace r) = inr false ->
  test_one_module entry r = (inr tt, snd (clean_workspace r)).
Proof.
  intros Hc. destruct entry as [module config].
  unfold test_one_module, bind at 1.
  destruct (clean_workspace r) as [[e|b] r1]; cbn in Hc; [discriminate|].
  inversion Hc; subst. reflexivity.
Qed.

Lemma clean_workspace_state (r : Runner) :
  self (snd (clean_workspace r)) = self r
  /\ calls (proc (snd (clean_workspace r))) =
     (calls (proc r) ++
        [ {| call_cmd := clean_cmd;
             call_cwd := Some (workspace_root (self r));
             call_timeout := 300 |} ])%list.
Proof.
  rewrite clean_workspace_eq. split; reflexivity.
Qed.

End Loop_facts.

(** C4: when the clean at the start of a module's sequence fails, the body
    of the loop ends there for that module: the tester is unchanged (no
    record, no counter), the only invocation made is the clean itself, and
    the loop goes on with the next module from that state; the loop as a
    whole still returns. *)
Theorem clean_failure_skips_module (os : OS) (entry : string * ModuleConfig)
    (rest : list (string * ModuleConfig)) (r : Runner) :
  fst (clean_workspace r) = inr false ->
  test_one_module entry r = (inr tt, snd (clean_workspace r))
  /\ self (snd (test_one_module entry r)) = self r
  /\ calls (proc (snd (test_one_module entry r))) =
     (calls (proc r) ++
        [ {| call_cmd := clean_cmd;
             call_cwd := Some (workspace_root (self r));
             call_timeout := 300 |} ])%list
  /\ for_each (entry :: rest) test_one_module r =
     for_each rest test_one_module (snd (clean_workspace r))
  /\ fst (for_each (entry :: rest) test_one_module r) = inr tt.
Proof.
  intros Hc.
  pose proof (test_one_module_clean_failed entry r Hc) as E.
  destruct (clean_workspace_state r) as [Hs Hcalls].
  split; [exact E|]. rewrite E. cbn [snd].
  split; [exact Hs|]. split; [exact Hcalls|]. split.
  - cbn [for_each]. unfold bind. now rewrite E.
  - apply for_each_returns. apply tracked_one_module.
Qed.

(** C4 where the build tool is missing: the clean fails and [blinky] is
    skipped with the tester as it was created. *)
Lemma clean_failure_witness :
  fst (@clean_workspace cargo_missing (@fresh cargo_missing "/ws" tt))
    = inr false
  /\ self (snd (@test_one_module cargo_missing
                  ("blinky", library [] None)
                  (@fresh cargo_missing "/ws" tt)))
     = init "/ws".
Proof.
  split.
  - reflexivity.
  - apply (@clean_failure_skips_module cargo_missing
             ("blinky", library [] None) []
             (@fresh cargo_missing "/ws" tt)).
    reflexivity.
Defined.

(** C7: for a module whose descriptor carries the test-only marker, the
    body of the loop returns without a build: the tester is unchanged (no
    record, no counter) and no build command is invoked, whatever examples
    and binaries the descriptor declares. *)
Theorem test_only_module_records_nothing (os : OS) (module : string)
    (config : ModuleConfig) (r : Runner) :
  is_test_only config = true ->
  fst (test_one_module (module, config) r) = inr tt
  /\ self (snd (test_one_module (module, config) r)) = self r
  /\ build_calls (calls (proc (snd (test_one_module (module, config) r))))
     = build_calls (calls (proc r)).
Proof.
  intros Ht.
  destruct (clean_workspace_state r) as [Hs Hcalls].
  assert (E : test_one_module (module, config) r
              = (inr tt, snd (clean_workspace r))).
  { destruct (fst (clean_workspace r)) as [e|[|]] eqn:Hc.
    - rewrite clean_workspace_eq in Hc. discriminate Hc.
    - now apply test_one_module_after_clean.
    - now apply test_one_module_clean_failed. }
  rewrite E. cbn [fst snd]. split; [reflexivity|]. split; [exact Hs|].
  rewrite Hcalls, build_calls_snoc. cbn. lia.
Qed.

(** C7 for a marked descriptor that declares two examples and a binary, in
    a world where every command succeeds. *)
Lemma test_only_module_witness :
  is_test_only marked_with_targets = true
  /\ self (snd (@test_one_module warns ("iot-hal", marked_with_targets)
                  (@fresh warns "/ws" tt)))
     = init "/ws".
Proof.
  split.
  - reflexivity.
  - apply (@test_only_module_records_nothing warns "iot-hal"
             marked_with_targets (@fresh warns "/ws" tt)).
    reflexivity.
Defined.

(** ** Runs in which the builds time out *)

Section Timeouts.
Context {os : OS}.

Lemma plays_ret {A} (a : A) : plays (ret a) [].
Proof. intros r. now exists a, r. Qed.

Lemma plays_bind {A B} (c : M Runner A) (k : A -> M Runner B)
    (l1 l2 : list string) :
  plays c l1 -> (forall a, plays (k a) l2) -> plays (bind c k) (l1 ++ l2).
Proof.
  intros Hc Hk r.
  destruct (Hc r) as (a & r1 & E1 & S1).
  destruct (Hk a r1) as (b & r2 & E2 & S2).
  exists b, r2. unfold bind. rewrite E1, E2. split; [reflexivity|].
  now rewrite map_app, replay_app, <- S1.
Qed.

Lemma plays_for_each {A} (xs : list A) (body : A -> M Runner unit)
    (f : A -> list string) :
  (forall x, plays (body x) (f x)) -> plays (for_each xs body) (flat_map f xs).
Proof.
  intros H. induction xs as [|x xs IH]; cbn [for_each flat_map].
  - apply plays_ret.
  - apply plays_bind; [apply H | intros _; exact IH].
Qed.

Lemma flat_map_singleton {A B} (f : A -> B) (xs : list A) :
  flat_map (fun x => [f x]) xs = map f xs.
Proof.
  induction xs as [|x xs IH]; cbn; [reflexivity | now rewrite IH].
Qed.

Lemma flat_map_filter {A B} (keep : A -> bool) (f : A -> B) (xs : list A) :
  flat_map (fun x => if keep x then [f x] else []) xs = map f (filter keep xs).
Proof.
  induction xs as [|x xs IH]; cbn; [reflexivity|].
  destruct (keep x); cbn; now rewrite IH.
Qed.

Lemma clean_cmd_exited_zero (cwd : option Path) (p : Proc) :
  clean_succeeds ->
  success_of (run_value (outcome_of clean_cmd cwd 300 p)) = true.
Proof.
  intros H. apply run_value_success. apply H.
Qed.

Hypothesis builds : builds_time_out.

Lemma build_value (cmd : list string) (cwd : option Path) (p : Proc) :
  is_build_cmd cmd = true ->
  run_value (outcome_of cmd cwd 300 p) = (false, "", timeout_message).
Proof.
  intros H. unfold outcome_of. now rewrite (builds cmd cwd 300 (world p) H).
Qed.

Lemma plays_clean : plays clean_workspace [].
Proof.
  intros r. rewrite clean_workspace_eq. now eexists _, _.
Qed.

Lemma plays_workspace_build (module : string)
    (example features : option string) :
  plays (test_workspace_build module example features)
        [with_example ("Workspace build: " ++ module) example].
Proof.
  intros r. rewrite test_workspace_build_eq. cbv zeta.
  rewrite build_value
    by (apply (workspace_cmd_is_build module example features None 0)).
  now eexists _, _.
Qed.

Lemma plays_binary (module binary : string) :
  plays (test_binary module binary)
        (if negb (String.eqb binary "main_container")
         then ["Workspace build: " ++ module ++ " (binary: " ++ binary ++ ")"]
         else []).
Proof.
  intros r. rewrite test_binary_eq. cbv zeta.
  destruct (String.eqb binary "main_container"); cbn [negb].
  - now exists tt, r.
  - rewrite build_value by reflexivity. now eexists _, _.
Qed.

Hypothesis dirs : directories_exist.

Lemma plays_module_build (module : string)
    (example features : option string) :
  plays (test_module_build module example features)
        [with_example ("Module build: " ++ module) example].
Proof.
  intros r. rewrite test_module_build_eq. cbv zeta.
  rewrite dirs.
  rewrite build_value
    by (apply (module_cmd_is_build example features None 0)).
  now eexists _, _.
Qed.

Hypothesis cleans : clean_succeeds.

Lemma plays_after_clean {B} (k : bool -> M Runner B) (ds : list string) :
  plays (k true) ds -> plays (bind clean_workspace k) ds.
Proof.
  intros Hk r. unfold bind. rewrite clean_workspace_eq.
  rewrite clean_cmd_exited_zero by exact cleans.
  destruct (Hk {| self := self r;
                  proc := after_call clean_cmd
                            (Some (workspace_root (self r))) 300 (proc r) |})
    as (b & r2 & E & S).
  exists b, r2. now rewrite E.
Qed.

Lemma plays_one_module (entry : string * ModuleConfig) :
  plays (test_one_module entry) (planned entry).
Proof.
  destruct entry as [module config].
  unfold test_one_module, planned.
  apply plays_after_clean. cbn [negb].
  destruct (is_test_only config); [apply plays_ret|].
  apply plays_bind.
  { destruct (negb (nonempty (examples config)) &&
              negb (nonempty (binaries_of config))).
    - change ["Workspace build: " ++ module; "Module build: " ++ module]
        with (List.app ["Workspace build: " ++ module]
                (List.app [] (List.app ["Module build: " ++ module] []))).
      apply plays_bind; [apply (plays_workspace_build module None)|intros _].
      apply plays_bind; [apply plays_clean|intros _].
      apply plays_bind; [apply (plays_module_build module None)|intros _].
      apply plays_ret.
    - apply plays_ret. }
  intros _. apply plays_bind.
  { rewrite <- flat_map_filter.
    destruct (binaries_of config) as [|b bs] eqn:B; cbn [nonempty].
    - apply plays_ret.
    - apply plays_for_each. intros x. apply plays_binary. }
  intros _. apply plays_bind.
  { rewrite <- flat_map_singleton. apply plays_for_each. intros x.
    change [with_example ("Workspace build: " ++ module) (Some x)]
      with (List.app []
              (List.app [with_example ("Workspace build: " ++ module) (Some x)]
                        [])).
    apply plays_bind; [apply plays_clean|intros _].
    apply plays_bind; [apply plays_workspace_build|intros _].
    apply plays_ret. }
  intros _.
  rewrite <- flat_map_singleton. apply plays_for_each. intros x.
  change [with_example ("Module build: " ++ module) (Some x)]
    with (List.app []
            (List.app [with_example ("Module build: " ++ module) (Some x)]
                      [])).
  apply plays_bind; [apply plays_clean|intros _].
  apply plays_bind; [apply plays_module_build|intros _].
  apply plays_ret.
Qed.

Lemma plays_modules (table : list (string * ModuleConfig)) :
  plays (for_each table test_one_module) (planned_steps table).
Proof.
  apply plays_for_each. apply plays_one_module.
Qed.

End Timeouts.

Section Clean_timeouts.
Context {os : OS}.

Lemma skipped_when_clean_times_out (table : list (string * ModuleConfig))
    (r : Runner) :
  clean_times_out ->
  exists r', for_each table test_one_module r = (inr tt, r')
             /\ self r' = self r.
Proof.
  intros H. revert r.
  induction table as [|entry table IH]; intros r; cbn [for_each].
  - now exists r.
  - assert (Hc : fst (clean_workspace r) = inr false).
    { rewrite clean_workspace_eq. unfold outcome_of. now rewrite H. }
    unfold bind. rewrite (test_one_module_clean_failed entry r Hc).
    destruct (IH (snd (clean_workspace r))) as (r' & E & S).
    exists r'. split; [exact E|].
    rewrite S. apply clean_workspace_state.
Qed.

Lemma timed_out_all_failed (ds : list string) :
  count_success false (map record_of (map timed_out ds)) = List.length ds
  /\ count_success true (map record_of (map timed_out ds)) = 0
  /\ Forall (fun r => success r = false /\ stderr r = timeout_message)
            (map record_of (map timed_out ds)).
Proof.
  unfold count_success.
  induction ds as [|d ds (IH1 & IH2 & IH3)]; cbn.
  - repeat split. constructor.
  - repeat split; [now rewrite IH1 | exact IH2 |].
    constructor; [now split | exact IH3].
Qed.

End Clean_timeouts.

Lemma planned_steps_count : List.length (planned_steps modules_table) = 41.
Proof. reflexivity. Qed.

(** C5 (amended): let every invocation of [cargo build] time out. If the
    cleans succeed and the module directories exist, the full run records
    exactly the planned build steps, in order, each as failed with the
    timeout message, and [total_tests] is their number, 41. If the cleans
    time out as well, every module is skipped after its failed clean: the
    log stays empty and [total_tests] is 0. *)
Theorem timed_out_builds_are_recorded (os : OS) (root : Path) (w : World) :
  builds_time_out ->
  let t := self (snd (test_all_modules (fresh root w))) in
  (clean_succeeds -> directories_exist ->
   results t = map record_of (map timed_out (planned_steps modules_table))
   /\ Forall (fun r => success r = false /\ stderr r = timeout_message)
             (results t)
   /\ total_tests t = List.length (planned_steps modules_table)
   /\ total_tests t = 41
   /\ failed_tests t = 41 /\ passed_tests t = 0)
  /\ (clean_times_out -> results t = [] /\ total_tests t = 0).
Proof.
  intros Hb t. split.
  - intros Hc Hd.
    destruct (plays_modules Hb Hd Hc modules_table (fresh root w))
      as (a & r' & E & S).
    assert (Et : t = replay (map timed_out (planned_steps modules_table))
                            (init root)).
    { subst t. unfold test_all_modules, bind, get_self.
      cbn [self fresh modules init]. rewrite E. exact S. }
    assert (Hcons : consistent t).
    { rewrite Et. apply replay_consistent, init_consistent. }
    assert (Hres : results t =
                   map record_of (map timed_out (planned_steps modules_table))).
    { rewrite Et, replay_results. reflexivity. }
    destruct (timed_out_all_failed (planned_steps modules_table))
      as (F1 & F2 & F3).
    destruct Hcons as [Hp Hf Hsum Hlen Hw].
    rewrite Hres in *. rewrite F1 in Hf. rewrite F2 in Hp.
    rewrite !length_map in Hlen. rewrite planned_steps_count in *.
    repeat split; try assumption; lia.
  - intros Hc.
    destruct (skipped_when_clean_times_out modules_table (fresh root w) Hc)
      as (r' & E & S).
    assert (Et : t = init root).
    { subst t. unfold test_all_modules, bind, get_self.
      cbn [self fresh modules init]. rewrite E. exact S. }
    rewrite Et. now split.
Qed.

Lemma builds_timeout_times_out : @builds_time_out builds_timeout.
Proof.
  intros cmd cwd timeout w H. cbn. unfold is_clean.
  destruct (list_eq_dec string_dec cmd clean_cmd) as [E|_].
  - subst cmd. discriminate H.
  - reflexivity.
Qed.

Lemma builds_timeout_cleans : @clean_succeeds builds_timeout.
Proof.
  intros cwd timeout w. eexists. cbn. split; reflexivity.
Qed.

(** C5 (amended) where the cleans succeed and everything else times out:
    41 attempts are recorded. *)
Lemma timed_out_builds_witness :
  @builds_time_out builds_timeout
  /\ total_tests
       (self (snd (@test_all_modules builds_timeout
                     (@fresh builds_timeout "/ws" tt)))) = 41.
Proof.
  split.
  - exact builds_timeout_times_out.
  - destruct (@timed_out_builds_are_recorded builds_timeout "/ws" tt
                builds_timeout_times_out) as [H _].
    apply (H builds_timeout_cleans (fun _ _ => eq_refl)).
Defined.

(** C5 as stated fails: when every invocation times out, the clean of each
    module fails first, the module is skipped, and nothing is recorded:
    [total_tests] is 0 and not the 41 planned steps. *)
Lemma all_timeouts_record_nothing :
  (forall cmd cwd timeout w,
      fst (@os_run always_timeout cmd cwd timeout w) = inl TimeoutExpired)
  /\ results (self (snd (@test_all_modules always_timeout
                           (@fresh always_timeout "/ws" tt)))) = []
  /\ total_tests (self (snd (@test_all_modules always_timeout
                               (@fresh always_timeout "/ws" tt))))
     <> List.length (planned_steps modules_table).
Proof.
  split; [reflexivity|]. split; [reflexivity|].
  intros H. vm_compute in H. discriminate H.
Qed.

(** ** The report *)

(** C6: the success rate of 3 passed attempts out of 4 is ["75.0%"]; but
    with no attempt at all the division raises [ZeroDivisionError], the
    report does not complete, and a run in which every clean fails ends
    that way, with exit status 1 and no verdict. *)
Theorem success_rate_divides_by_total :
  success_rate (counted 4 3 1) = inr "75.0%"
  /\ (forall (os : OS) (root : Path) (p : Proc),
         generate_report {| self := init root; proc := p |}
         = (inl ZeroDivisionError, {| self := init root; proc := p |}))
  /\ fst (@main cargo_missing default_args (@start cargo_missing tt))
     = inl ZeroDivisionError
  /\ exit_status
       (fst (@main cargo_missing default_args (@start cargo_missing tt))) = 1
  /\ option_map total_tests
       (tester (snd (@main cargo_missing default_args
                       (@start cargo_missing tt)))) = Some 0.
Proof.
  split; [vm_compute; reflexivity|].
  split; [intros os root p; reflexivity|].
  repeat split; vm_compute; reflexivity.
Qed.

(** ** The command line *)

Section Console.
Context {os : OS}.

Lemma blind_ret {A} (a : A) : console_blind (ret a).
Proof. intros lines m. reflexivity. Qed.

Lemma blind_bind {A B} (c : M MainState A) (k : A -> M MainState B) :
  console_blind c -> (forall a, console_blind (k a)) ->
  console_blind (bind c k).
Proof.
  intros Hc Hk lines m. unfold bind. rewrite Hc.
  destruct (c m) as [[e|a] m1]; cbn [fst snd].
  - reflexivity.
  - rewrite Hk. reflexivity.
Qed.

Lemma blind_in_proc {A} (c : M Proc A) : console_blind (in_proc c).
Proof.
  intros lines m. unfold in_proc, with_console. cbn [main_proc tester].
  destruct (c (main_proc m)) as [a p]. reflexivity.
Qed.

Lemma blind_on_tester {A} (method : M Runner A) :
  console_blind (on_tester method).
Proof.
  intros lines m. unfold on_tester, with_console. cbn [main_proc tester].
  destruct (tester m) as [obj|] eqn:T.
  - destruct (method _) as [a r]. reflexivity.
  - cbn [fst snd]. now rewrite T.
Qed.

Lemma blind_new_tester (root : string) : console_blind (new_tester root).
Proof.
  unfold new_tester. apply blind_bind; [apply blind_in_proc|].
  intros resolved lines m. reflexivity.
Qed.

End Console.

(** C9: two runs of [main] from the same state whose arguments differ only
    in [--continue-on-fail] end alike: the same result, the same tester
    (result log and counters), the same process state (the world and the
    sequence of invocations) and the same exit status. Only the echoed
    options line tells them apart. *)
Theorem continue_on_fail_changes_nothing (os : OS) (root : string)
    (hide flag1 flag2 : bool) (m : MainState) :
  let run flag :=
    main {| arg_workspace_root := root; hide_warnings := hide;
            continue_on_fail := flag |} m in
  fst (run flag1) = fst (run flag2)
  /\ tester (snd (run flag1)) = tester (snd (run flag2))
  /\ main_proc (snd (run flag1)) = main_proc (snd (run flag2))
  /\ exit_status (fst (run flag1)) = exit_status (fst (run flag2)).
Proof.
  cbv beta zeta. unfold main. cbv zeta.
  cbn [arg_workspace_root hide_warnings].
  set (body := bind (in_proc (path_exists _)) _).
  assert (Hb : console_blind body).
  { subst body.
    apply blind_bind; [apply blind_in_proc|]. intros present.
    destruct (negb present); [apply blind_ret|].
    apply blind_bind; [apply blind_in_proc|]. intros content.
    destruct (negb _); [apply blind_ret|].
    apply blind_bind; [apply blind_new_tester|]. intros _.
    apply blind_bind; [apply blind_on_tester|]. intros _.
    apply blind_bind; [apply blind_on_tester|]. intros _.
    apply blind_bind; [apply blind_on_tester|]. intros success.
    apply blind_ret. }
  assert (E : forall line,
             bind (print ("Starting build test in: " ++ root))
                  (fun _ => bind (print line) (fun _ => body)) m
             = (fst (body m),
                with_console
                  (List.app (console m)
                     ["Starting build test in: " ++ root; line])
                  (snd (body m)))).
  { intros line. unfold bind, print.
    cbn [fst snd tester main_proc console].
    rewrite <- app_assoc. cbn [List.app].
    apply (Hb _ m). }
  rewrite !E. cbn [fst snd]. repeat split.
Qed.

(** ** The quick probe *)

Section Probe_facts.
Context {os : OS}.

Lemma probe_module_eq (module : string) (s : QuickProbe.Probe) :
  QuickProbe.probe_module module s = (inr tt, module_step module s).
Proof.
  unfold QuickProbe.probe_module, module_step, bind, QuickProbe.in_proc.
  rewrite probe_module_build_eq.
  destruct (probe_value _) as [[|] error]; reflexivity.
Qed.

Lemma probe_binary_eq (binary : string) (s : QuickProbe.Probe) :
  QuickProbe.probe_binary binary s = (inr tt, binary_step binary s).
Proof.
  unfold QuickProbe.probe_binary, binary_step, bind, QuickProbe.in_proc.
  rewrite probe_binary_build_eq.
  destruct (probe_value _) as [[|] error]; reflexivity.
Qed.

Lemma for_each_steps {S A} (body : A -> M S unit) (step : A -> S -> S)
    (xs : list A) (s : S) :
  (forall x s, body x s = (inr tt, step x s)) ->
  for_each xs body s = (inr tt, fold_left (fun s x => step x s) xs s).
Proof.
  intros H. revert s.
  induction xs as [|x xs IH]; intros s; cbn [for_each fold_left].
  - reflexivity.
  - unfold bind. rewrite H. apply IH.
Qed.

Lemma probe_main_eq (s : QuickProbe.Probe) :
  QuickProbe.main s =
  (inr (List.length (QuickProbe.broken (probed s)) =? 0)%nat, probed s).
Proof.
  unfold QuickProbe.main, probed.
  unfold bind at 1. unfold modify at 1.
  unfold bind at 1.
  rewrite (for_each_steps _ module_step _ _ probe_module_eq).
  unfold bind at 1.
  rewrite (for_each_steps _ binary_step _ _ probe_binary_eq).
  reflexivity.
Qed.

Lemma module_step_builds (module : string) (s : QuickProbe.Probe) :
  module_builds module ->
  QuickProbe.working (module_step module s)
    = (QuickProbe.working s ++ [module])%list
  /\ QuickProbe.broken (module_step module s) = QuickProbe.broken s.
Proof.
  intros H. unfold module_step.
  assert (E : fst (probe_value
                (outcome_of ["cargo"; "build"; "--release"; "-p"; module]
                            None 120 (QuickProbe.probe_proc s))) = true)
    by (apply probe_value_success; apply H).
  cbv zeta. rewrite E. now split.
Qed.

Lemma module_step_fails (module : string) (s : QuickProbe.Probe) :
  module_fails module ->
  QuickProbe.working (module_step module s) = QuickProbe.working s
  /\ map fst (QuickProbe.broken (module_step module s))
     = (map fst (QuickProbe.broken s) ++ [module])%list.
Proof.
  intros H. unfold module_step. cbv zeta.
  destruct (fst (probe_value
                (outcome_of ["cargo"; "build"; "--release"; "-p"; module]
                            None 120 (QuickProbe.probe_proc s)))) eqn:E.
  - apply probe_value_success in E. destruct (H _ E).
  - cbn [QuickProbe.working QuickProbe.broken].
    split; [reflexivity|]. now rewrite map_app.
Qed.

Lemma binary_step_builds (binary : string) (s : QuickProbe.Probe) :
  binary_builds binary ->
  QuickProbe.working (binary_step binary s)
    = List.app (QuickProbe.working s) [binary ++ " (binary)"]
  /\ QuickProbe.broken (binary_step binary s) = QuickProbe.broken s.
Proof.
  intros H. unfold binary_step.
  assert (E : fst (probe_value
                (outcome_of ["cargo"; "build"; "--release"; "--bin"; binary]
                            None 120 (QuickProbe.probe_proc s))) = true)
    by (apply probe_value_success; apply H).
  cbv zeta. rewrite E. now split.
Qed.

Lemma module_steps_build (ms : list string) (s : QuickProbe.Probe) :
  (forall m, In m ms -> module_builds m) ->
  QuickProbe.working (fold_left (fun s m => module_step m s) ms s)
    = (QuickProbe.working s ++ ms)%list
  /\ QuickProbe.broken (fold_left (fun s m => module_step m s) ms s)
     = QuickProbe.broken s.
Proof.
  revert s. induction ms as [|m ms IH]; intros s H; cbn [fold_left].
  - now rewrite app_nil_r.
  - destruct (IH (module_step m s)) as [W B].
    { intros x Hx. apply H. now right. }
    destruct (module_step_builds s (H m (or_introl eq_refl))) as [W1 B1].
    rewrite W, B, W1, B1, <- app_assoc. now split.
Qed.

Lemma binary_steps_build (bs : list string) (s : QuickProbe.Probe) :
  (forall b, binary_builds b) ->
  QuickProbe.working (fold_left (fun s b => binary_step b s) bs s)
    = List.app (QuickProbe.working s) (map (fun b => b ++ " (binary)") bs)
  /\ QuickProbe.broken (fold_left (fun s b => binary_step b s) bs s)
     = QuickProbe.broken s.
Proof.
  revert s. induction bs as [|b bs IH]; intros s H; cbn [fold_left map].
  - now rewrite app_nil_r.
  - destruct (IH (binary_step b s) H) as [W B].
    destruct (binary_step_builds s (H b)) as [W1 B1].
    rewrite W, B, W1, B1, <- app_assoc. now split.
Qed.

End Probe_facts.

(** C8: the quick probe exits with status 0 exactly when the broken list
    is empty. When the build of ["iot-hal"] fails and every other module
    and both binaries build, the broken list has the one entry for
    ["iot-hal"], the working list holds the other ten modules in order and
    then the two binaries, and the exit status is 1. *)
Theorem quick_probe_verdict (os : OS) (s : QuickProbe.Probe) :
  (QuickProbe.exit_status (fst (QuickProbe.main s)) = 0 <->
   QuickProbe.broken (snd (QuickProbe.main s)) = [])
  /\ (module_fails "iot-hal" ->
      (forall m, m <> "iot-hal" -> module_builds m) ->
      (forall b, binary_builds b) ->
      map fst (QuickProbe.broken (snd (QuickProbe.main s))) = ["iot-hal"]
      /\ QuickProbe.working (snd (QuickProbe.main s)) =
         [ "blinky"; "bme280-embassy"; "wifi-embassy"; "wifi-synchronous";
           "serial-console-embassy"; "mqtt-embassy"; "main-app";
           "iot-common"; "iot-container"; "iot-performance";
           "main (binary)"; "main_container (binary)" ]
      /\ QuickProbe.exit_status (fst (QuickProbe.main s)) = 1).
Proof.
  rewrite probe_main_eq. cbn [fst snd]. split.
  - destruct (QuickProbe.broken (probed s)) as [|x xs]; cbn.
    + split; reflexivity.
    + split; discriminate.
  - intros Hhal Hmods Hbins.
    assert (E : map fst (QuickProbe.broken (probed s)) = ["iot-hal"]
                /\ QuickProbe.working (probed s) =
                   [ "blinky"; "bme280-embassy"; "wifi-embassy";
                     "wifi-synchronous"; "serial-console-embassy";
                     "mqtt-embassy"; "main-app"; "iot-common";
                     "iot-container"; "iot-performance";
                     "main (binary)"; "main_container (binary)" ]).
    { unfold probed.
      destruct (binary_steps_build QuickProbe.binaries
                  (fold_left (fun s m => module_step m s) QuickProbe.modules
                     {| QuickProbe.working := []; QuickProbe.broken := [];
                        QuickProbe.probe_proc := QuickProbe.probe_proc s |})
                  Hbins) as [W B].
      rewrite W, B. clear W B.
      change QuickProbe.modules
        with (List.app
                [ "blinky"; "bme280-embassy"; "wifi-embassy";
                  "wifi-synchronous"; "serial-console-embassy";
                  "mqtt-embassy"; "main-app"; "iot-common"; "iot-container" ]
                ("iot-hal" :: ["iot-performance"])).
      rewrite fold_left_app.
      destruct (module_steps_build
                  [ "blinky"; "bme280-embassy"; "wifi-embassy";
                    "wifi-synchronous"; "serial-console-embassy";
                    "mqtt-embassy"; "main-app"; "iot-common";
                    "iot-container" ]
                  {| QuickProbe.working := []; QuickProbe.broken := [];
                     QuickProbe.probe_proc := QuickProbe.probe_proc s |})
        as [W0 B0].
      { intros m Hm. apply Hmods. intros ->.
        repeat (destruct Hm as [Hm|Hm]; [discriminate Hm|]). destruct Hm. }
      set (s0 := fold_left _ _ _) in *.
      cbn [fold_left].
      destruct (module_step_fails s0 Hhal) as [W1 B1].
      destruct (module_step_builds (module_step "iot-hal" s0)
                  (Hmods "iot-performance" ltac:(discriminate)))
        as [W2 B2].
      rewrite W2, B2, W1, B1, W0, B0. split; reflexivity. }
    destruct E as [EB EW]. split; [exact EB|]. split; [exact EW|].
    destruct (QuickProbe.broken (probed s)); [discriminate EB|reflexivity].
Qed.

Lemma hal_broken_fails : @module_fails hal_broken "iot-hal".
Proof.
  intros w [cp [E Z]]. cbn in E. inversion E; subst. discriminate Z.
Qed.

Lemma hal_broken_modules (m : string) :
  m <> "iot-hal" -> @module_builds hal_broken m.
Proof.
  intros Hm w. unfold exited_zero, os_run, hal_broken.
  destruct (list_eq_dec string_dec
              ["cargo"; "build"; "--release"; "-p"; m]
              ["cargo"; "build"; "--release"; "-p"; "iot-hal"]) as [E|_].
  - inversion E. contradiction.
  - eexists. split; reflexivity.
Qed.

Lemma hal_broken_binaries (b : string) : @binary_builds hal_broken b.
Proof.
  intros w. unfold exited_zero, os_run, hal_broken.
  destruct (list_eq_dec string_dec
              ["cargo"; "build"; "--release"; "--bin"; b]
              ["cargo"; "build"; "--release"; "-p"; "iot-hal"]) as [E|_].
  - discriminate E.
  - eexists. split; reflexivity.
Qed.

(** C8 in a world where only the package [iot-hal] does not compile. *)
Lemma quick_probe_witness :
  @module_fails hal_broken "iot-hal"
  /\ map fst (QuickProbe.broken
                (snd (@QuickProbe.main hal_broken
                        (@QuickProbe.start hal_broken 0)))) = ["iot-hal"]
  /\ QuickProbe.exit_status
       (fst (@QuickProbe.main hal_broken (@QuickProbe.start hal_broken 0)))
     = 1.
Proof.
  split; [exact hal_broken_fails|].
  destruct (@quick_probe_verdict hal_broken (@QuickProbe.start hal_broken 0))
    as [_ H].
  destruct (H hal_broken_fails hal_broken_modules hal_broken_binaries)
    as (B & _ & X).
  split; [exact B | exact X].
Defined.

(** ** More on the warning scanner *)

Lemma split_lines_nonempty (s : string) : PyStr.split_lines s <> [].
Proof.
  destruct s as [|c r]; cbn.
  - discriminate.
  - destruct (Ascii.eqb c PyStr.LF); [discriminate|].
    destruct (PyStr.split_lines r); discriminate.
Qed.

Lemma split_lines_app (a b : string) :
  PyStr.split_lines (a ++ PyStr.nl ++ b) =
  (PyStr.split_lines a ++ PyStr.split_lines b)%list.
Proof.
  induction a as [|c r IH].
  - cbn. reflexivity.
  - cbn [append PyStr.split_lines].
    destruct (Ascii.eqb c PyStr.LF).
    + now rewrite IH.
    + rewrite IH.
      pose proof (split_lines_nonempty r) as N.
      destruct (PyStr.split_lines r) as [|h t]; [now destruct N|reflexivity].
Qed.

Lemma detect_warnings_lines (stdout stderr : string) :
  detect_warnings stdout stderr =
  map PyStr.strip
      (filter is_warning_line
              (PyStr.split_lines stdout ++ PyStr.split_lines stderr)).
Proof.
  unfold detect_warnings. now rewrite scan_lines_spec, split_lines_app.
Qed.

(** X1: the warnings of stdout come first, then those of stderr: scanning the
    two texts together gives what scanning each alone gives *)
Theorem detect_warnings_splits (stdout stderr : string) :
  detect_warnings stdout stderr =
  (detect_warnings stdout "" ++ detect_warnings "" stderr)%list.
Proof.
  rewrite !detect_warnings_lines.
  cbn [PyStr.split_lines].
  rewrite !filter_app, !map_app. cbn. now rewrite app_nil_r.
Qed.



















(** ** The invocations of a full run *)

Section Trace_facts.
Context {os : OS}.
Variable root : Path.
Variable names : list string.

Lemma cache_run_app (s : bool) (t1 t2 : list Call) :
  cache_run s (t1 ++ t2) =
  match cache_run s t1 with
  | Some s1 => cache_run s1 t2
  | None => None
  end.
Proof.
  revert s. induction t1 as [|c t1 IH]; intros s; cbn.
  - reflexivity.
  - destruct (cache_step s c); [apply IH|reflexivity].
Qed.

Lemma traced_ret {A} (a : A) (s : bool) (Q : bool -> Prop) :
  Q s -> traced root names (ret a) s Q.
Proof.
  intros HQ r Hr. exists a, r, [], s. cbn.
  rewrite app_nil_r. repeat split; auto.
Qed.

Lemma traced_bind {A B} (c : M Runner A) (k : A -> M Runner B)
    (s : bool) (Q R : bool -> Prop) :
  traced root names c s Q ->
  (forall a s', Q s' -> traced root names (k a) s' R) ->
  traced root names (bind c k) s R.
Proof.
  intros Hc Hk r Hr.
  destruct (Hc r Hr) as (a & r1 & t1 & s1 & E1 & W1 & C1 & A1 & Q1 & F1).
  destruct (Hk a s1 Q1 r1 W1)
    as (b & r2 & t2 & s2 & E2 & W2 & C2 & A2 & Q2 & F2).
  exists b, r2, (t1 ++ t2)%list, s2.
  unfold bind. rewrite E1, E2. split; [reflexivity|]. split; [exact W2|].
  split; [now rewrite C2, C1, app_assoc|].
  split; [now rewrite cache_run_app, A1|].
  split; [exact Q2|]. now apply Forall_app.
Qed.

Lemma traced_weaken {A} (m : M Runner A) (s : bool) (Q R : bool -> Prop) :
  traced root names m s Q -> (forall x, Q x -> R x) ->
  traced root names m s R.
Proof.
  intros H HQR r Hr.
  destruct (H r Hr) as (a & r1 & t1 & s1 & E1 & W1 & C1 & A1 & Q1 & F1).
  exists a, r1, t1, s1. repeat split; auto.
Qed.

Lemma traced_for_each {A} (xs : list A) (body : A -> M Runner unit) :
  (forall x, In x xs ->
             forall s, traced root names (body x) s (fun _ => True)) ->
  forall s, traced root names (for_each xs body) s (fun _ => True).
Proof.
  induction xs as [|x xs IH]; intros H s; cbn [for_each].
  - now apply traced_ret.
  - apply traced_bind with (Q := fun _ => True).
    + apply H. now left.
    + intros _ s' _. apply IH. intros y Hy. apply H. now right.
Qed.

Lemma is_build_not_clean (cmd : list string) :
  is_build_cmd cmd = true -> is_clean cmd = false.
Proof.
  intros H. unfold is_clean.
  destruct (list_eq_dec string_dec cmd clean_cmd) as [E|_];
    [subst cmd; discriminate H | reflexivity].
Qed.

Lemma workspace_cmd_release (module : string)
    (example features : option string) :
  In "--release" (workspace_cmd module example features).
Proof.
  unfold workspace_cmd. apply in_or_app. right. now left.
Qed.

Lemma module_cmd_release (example features : option string) :
  In "--release" (module_cmd example features).
Proof.
  unfold module_cmd. apply in_or_app. right. now left.
Qed.

Lemma traced_clean (s : bool) :
  traced root names clean_workspace s (fun s' => s' = true).
Proof.
  intros r Hr. rewrite clean_workspace_eq.
  eexists _, _, [clean_call (workspace_root (self r))], true.
  split; [reflexivity|]. cbn [self proc]. split; [exact Hr|].
  split; [reflexivity|]. split; [reflexivity|]. split; [reflexivity|].
  constructor; [|constructor]. rewrite Hr. split; [reflexivity|now left].
Qed.

Lemma traced_workspace_build (module : string)
    (example features : option string) :
  traced root names (test_workspace_build module example features) true
         (fun _ => True).
Proof.
  intros r Hr. rewrite test_workspace_build_eq. cbv zeta.
  eexists _, _, [_], false.
  split; [reflexivity|]. cbn [self proc].
  split; [unfold record_attempt;
          now rewrite (proj1 (record_result_frame _ _ _ _ _))|].
  split; [reflexivity|].
  pose proof (workspace_cmd_is_build module example features
                (Some (workspace_root (self r))) 300) as B.
  split.
  { cbn [cache_run]. unfold cache_step. cbn [call_cmd].
    now rewrite (is_build_not_clean
                   (workspace_cmd module example features) B). }
  split; [exact I|].
  constructor; [|constructor]. split; [reflexivity|]. right.
  split; [exact B|]. split; [apply workspace_cmd_release|].
  left. cbn [call_cwd]. now rewrite Hr.
Qed.

Lemma traced_module_build (module : string)
    (example features : option string) :
  In module names ->
  traced root names (test_module_build module example features) true
         (fun _ => True).
Proof.
  intros Hin r Hr. rewrite test_module_build_eq. cbv zeta.
  destruct (os_exists _ _).
  - eexists _, _, [_], false.
    split; [reflexivity|]. cbn [self proc].
    split; [unfold record_attempt;
            now rewrite (proj1 (record_result_frame _ _ _ _ _))|].
    split; [reflexivity|].
    pose proof (module_cmd_is_build example features
                  (Some (path_join (workspace_root (self r)) module)) 300)
      as B.
    split.
    { cbn [cache_run]. unfold cache_step. cbn [call_cmd].
      now rewrite (is_build_not_clean (module_cmd example features) B). }
    split; [exact I|].
    constructor; [|constructor]. split; [reflexivity|]. right.
    split; [exact B|]. split; [apply module_cmd_release|].
    right. exists module. split; [exact Hin|].
    cbn [call_cwd]. now rewrite Hr.
  - exists false, r, [], true. rewrite app_nil_r.
    repeat split; auto.
Qed.

Lemma traced_binary (module binary : string) (s : bool) :
  traced root names (test_binary module binary) s (fun _ => True).
Proof.
  intros r Hr. rewrite test_binary_eq. cbv zeta.
  destruct (String.eqb binary "main_container").
  - exists tt, r, [], s. rewrite app_nil_r. repeat split; auto.
  - eexists _, _, [clean_call (workspace_root (self r)); _], false.
    split; [reflexivity|]. cbn [self proc].
    split; [unfold record_attempt;
            now rewrite (proj1 (record_result_frame _ _ _ _ _))|].
    split; [unfold after_call; cbn [calls]; now rewrite <- app_assoc|].
    split; [reflexivity|]. split; [exact I|].
    constructor; [|constructor; [|constructor]].
    + rewrite Hr. split; [reflexivity|now left].
    + split; [reflexivity|]. right. split; [reflexivity|].
      split; [cbn; tauto|]. left. cbn [call_cwd]. now rewrite Hr.
Qed.

Lemma traced_one_module (entry : string * ModuleConfig) (s : bool) :
  In (fst entry) names ->
  traced root names (test_one_module entry) s (fun _ => True).
Proof.
  destruct entry as [module config]. cbn [fst]. intros Hin.
  unfold test_one_module.
  apply traced_bind with (Q := fun s' => s' = true); [apply traced_clean|].
  intros cleaned s' ->.
  destruct (negb cleaned); [now apply traced_ret|].
  destruct (is_test_only config); [now apply traced_ret|].
  apply traced_bind with (Q := fun _ => True).
  { destruct (negb (nonempty (examples config)) &&
              negb (nonempty (binaries_of config))).
    - apply traced_bind with (Q := fun _ => True);
        [apply traced_workspace_build|intros _ s1 _].
      apply traced_bind with (Q := fun s' => s' = true);
        [apply traced_clean|intros _ s2 ->].
      apply traced_bind with (Q := fun _ => True);
        [now apply traced_module_build|intros _ s3 _].
      now apply traced_ret.
    - now apply traced_ret. }
  intros _ s1 _.
  apply traced_bind with (Q := fun _ => True).
  { destruct (nonempty (binaries_of config)).
    - apply traced_for_each. intros b _ s2. apply traced_binary.
    - now apply traced_ret. }
  intros _ s2 _.
  apply traced_bind with (Q := fun _ => True).
  { apply traced_for_each. intros example _ s3.
    apply traced_bind with (Q := fun s' => s' = true);
      [apply traced_clean|intros _ s4 ->].
    apply traced_bind with (Q := fun _ => True);
      [apply traced_workspace_build|intros _ s5 _].
    now apply traced_ret. }
  intros _ s3 _.
  apply traced_for_each. intros example _ s4.
  apply traced_bind with (Q := fun s' => s' = true);
    [apply traced_clean|intros _ s5 ->].
  apply traced_bind with (Q := fun _ => True);
    [now apply traced_module_build|intros _ s6 _].
  now apply traced_ret.
Qed.

End Trace_facts.

Lemma traced_table {os : OS} (root : Path)
    (table : list (string * ModuleConfig)) (s : bool) :
  traced root (map fst table) (for_each table test_one_module) s
         (fun _ => True).
Proof.
  apply traced_for_each. intros entry Hin s'.
  apply traced_one_module. now apply in_map.
Qed.

Lemma full_run_trace {os : OS} (root : Path) (w : World) :
  exists s,
    cache_run false (calls (proc (snd (test_all_modules (fresh root w)))))
      = Some s
    /\ Forall (well_formed_call root (map fst modules_table))
              (calls (proc (snd (test_all_modules (fresh root w))))).
Proof.
  destruct (@traced_table os root modules_table false (fresh root w) eq_refl)
    as (a & r' & tr & s' & E & _ & C & A & _ & F).
  exists s'.
  unfold test_all_modules, bind, get_self. cbn [self fresh modules init].
  rewrite E. cbn [snd]. rewrite C. cbn. now split.
Qed.

(** X3: every invocation of a full run has the timeout of 300 seconds and is
    either [cargo clean] in the workspace root or a [cargo build] with
    [--release], run in the workspace root or in the folder of a module of
    the registry *)
Theorem full_run_invokes_only_cargo (os : OS) (root : Path) (w : World) :
  Forall (well_formed_call root (map fst modules_table))
         (calls (proc (snd (test_all_modules (fresh root w))))).
Proof.
  destruct (@full_run_trace os root w) as (s & _ & F). exact F.
Qed.




(** ** The entry point of the full runner *)

Section Main_facts.
Context {os : OS}.

Lemma generate_report_eq (r : Runner) :
  generate_report r =
  (match success_rate (self r) with
   | inl e => inl e
   | inr _ => inr (failed_tests (self r) =? 0)%nat
   end, r).
Proof.
  unfold generate_report, bind, get_self, eval.
  destruct (success_rate (self r)) as [e|rate]; [reflexivity|].
  destruct (failed_tests (self r) =? 0)%nat; reflexivity.
Qed.

Lemma main_cases (args : Args) (m : MainState) :
  main args m =
  if negb (os_exists (manifest args) (world (main_proc m)))
  then (inr 1, echoed args m)
  else
    match os_read (manifest args) (world (main_proc m)) with
    | inl e => (inl e, echoed args m)
    | inr content =>
        if negb (PyStr.contains "[workspace]" content)
        then (inr 1, echoed args m)
        else
          let r1 := snd (test_all_modules (first_state args m)) in
          (match success_rate (self r1) with
           | inl e => inl e
           | inr _ => inr (if (failed_tests (self r1) =? 0)%nat
                           then 0 else 1)
           end,
           {| tester := Some (self r1); main_proc := proc r1;
              console := console (echoed args m) |})
    end.
Proof.
  unfold main, manifest, echoed, first_state, with_console.
  cbv zeta.
  unfold bind at 1. unfold print at 1.
  unfold bind at 1. unfold print at 1.
  cbn [tester main_proc console].
  rewrite <- app_assoc. cbn [List.app].
  unfold bind at 1. unfold in_proc at 1, path_exists.
  cbn [tester main_proc console].
  destruct (os_exists _ _); cbn [negb]; [|reflexivity].
  unfold bind at 1. unfold in_proc at 1, read_text.
  cbn [tester main_proc console].
  destruct (os_read _ _) as [e|content]; [reflexivity|].
  destruct (negb (PyStr.contains "[workspace]" content)); [reflexivity|].
  unfold bind at 1. unfold new_tester, bind at 1.
  unfold in_proc at 1, path_resolve.
  cbn [tester main_proc console].
  unfold bind at 1. unfold on_tester at 1, modify_self.
  cbn [tester main_proc console self proc].
  unfold bind at 1. unfold on_tester at 1.
  cbn [tester main_proc console].
  destruct (tracked_all_modules
              {| self := set_show_warnings (negb (hide_warnings args))
                           (init (os_resolve (arg_workspace_root args)
                                             (world (main_proc m))));
                 proc := main_proc m |})
    as ([] & r1 & ran & E & _).
  rewrite E. cbn [snd].
  unfold bind at 1. unfold on_tester at 1.
  cbn [tester main_proc console self proc].
  replace {| self := self r1; proc := proc r1 |} with r1
    by (destruct r1; reflexivity).
  rewrite generate_report_eq.
  destruct (success_rate (self r1)) as [e|rate]; [reflexivity|].
  unfold ret. destruct (failed_tests (self r1) =? 0)%nat; reflexivity.
Qed.

End Main_facts.

(** X5: when the manifest is missing, or holds no [[workspace]] table, [main]
    ends with exit status 1 before anything is built: no command is
    invoked and no tester is created *)
Theorem main_needs_a_workspace (os : OS) (args : Args) (m : MainState) :
  os_exists (manifest args) (world (main_proc m)) = false
  \/ (exists content,
        os_read (manifest args) (world (main_proc m)) = inr content
        /\ PyStr.contains "[workspace]" content = false) ->
  fst (main args m) = inr 1
  /\ exit_status (fst (main args m)) = 1
  /\ main_proc (snd (main args m)) = main_proc m
  /\ tester (snd (main args m)) = tester m.
Proof.
  intros H. rewrite main_cases.
  destruct (os_exists _ _); cbn [negb].
  - destruct H as [H|(content & R & C)]; [discriminate H|].
    rewrite R, C. cbn. repeat split.
  - cbn. repeat split.
Qed.

Lemma main_needs_a_workspace_witness :
  (@os_exists missing_dirs
     (manifest {| arg_workspace_root := "/elsewhere";
                  hide_warnings := false; continue_on_fail := false |})
     tt = false
   /\ calls (main_proc
               (snd (@main missing_dirs
                       {| arg_workspace_root := "/elsewhere";
                          hide_warnings := false;
                          continue_on_fail := false |}
                       (@start missing_dirs tt)))) = [])
  /\ (@os_read plain_package (manifest default_args) tt = inr "[package]"
      /\ fst (@main plain_package default_args (@start plain_package tt))
         = inr 1).
Proof.
  split.
  - split; [reflexivity|].
    destruct (@main_needs_a_workspace missing_dirs
                {| arg_workspace_root := "/elsewhere";
                   hide_warnings := false; continue_on_fail := false |}
                (@start missing_dirs tt) (or_introl eq_refl))
      as (_ & _ & P & _).
    rewrite P. reflexivity.
  - split; [reflexivity|].
    apply (@main_needs_a_workspace plain_package default_args
             (@start plain_package tt)).
    right. exists "[package]". split; reflexivity.
Defined.

Lemma no_failed_record (rs : list ResultRecord) :
  count_success false rs = 0 -> Forall (fun r => success r = true) rs.
Proof.
  unfold count_success. induction rs as [|r rs IH]; cbn [filter]; intros H.
  - constructor.
  - destruct (success r) eqn:S; cbn in H.
    + constructor; [exact S|now apply IH].
    + discriminate H.
Qed.

Lemma success_rate_needs_attempts (t : BuildTester) (rate : string) :
  success_rate t = inr rate -> total_tests t <> 0.
Proof.
  unfold success_rate, PyFloat.int_truediv. intros H E.
  rewrite E in H. discriminate H.
Qed.

Lemma main_tester_consistent {os : OS} (args : Args) (m : MainState) :
  consistent (self (snd (test_all_modules (first_state args m)))).
Proof.
  destruct (tracked_all_modules (first_state args m))
    as (a & r1 & ran & E & S & _).
  rewrite E. cbn [snd]. rewrite S.
  apply replay_consistent. constructor; reflexivity.
Qed.

(** X6: [main] ends with exit status 0 only when at least one build was
    attempted and every recorded attempt succeeded: the tester it leaves
    has a log that is not empty and holds successes only *)
Theorem exit_zero_means_all_passed (os : OS) (args : Args) (m : MainState) :
  exit_status (fst (main args m)) = 0 ->
  exists t,
    tester (snd (main args m)) = Some t
    /\ results t <> []
    /\ Forall (fun r => success r = true) (results t)
    /\ failed_tests t = 0
    /\ passed_tests t = List.length (results t).
Proof.
  rewrite main_cases.
  destruct (negb (os_exists _ _)); [discriminate|].
  destruct (os_read _ _) as [e|content]; [discriminate|].
  destruct (negb (PyStr.contains _ _)); [discriminate|].
  cbv zeta. cbn [fst snd].
  pose proof (main_tester_consistent args m) as [Hp Hf Hs Hl Hw].
  set (t := self (snd (test_all_modules (first_state args m)))) in *.
  destruct (success_rate t) as [e|rate] eqn:R; [discriminate|].
  destruct (failed_tests t =? 0)%nat eqn:F; [|discriminate].
  intros _. apply Nat.eqb_eq in F.
  pose proof (success_rate_needs_attempts t R) as T.
  exists t. split; [reflexivity|]. split.
  - intros N. rewrite N in Hl. cbn in Hl. contradiction.
  - split; [apply no_failed_record; congruence|].
    split; [exact F|]. lia.
Qed.

(** a run in which every build succeeds, with warnings *)
Lemma exit_zero_witness :
  exit_status (fst (@main warns default_args (@start warns tt))) = 0
  /\ option_map failed_tests
       (tester (snd (@main warns default_args (@start warns tt)))) = Some 0.
Proof.
  assert (H : exit_status (fst (@main warns default_args (@start warns tt)))
              = 0) by (vm_compute; reflexivity).
  split; [exact H|].
  destruct (@exit_zero_means_all_passed warns default_args
              (@start warns tt) H) as (t & E & _ & _ & F & _).
  rewrite E. cbn. now rewrite F.
Defined.

(** ** The display option *)

Section Show_facts.
Context {os : OS}.

Lemma record_attempt_shown (b : bool) (t : BuildTester) (a : Attempt) :
  record_attempt (set_show_warnings b t) a
  = set_show_warnings b (record_attempt t a).
Proof.
  unfold record_attempt, record_result.
  destruct (nonempty (detect_warnings (a_stdout a) (a_stderr a))),
    (a_success a); reflexivity.
Qed.

Lemma show_blind_ret {A} (a : A) : show_blind (ret a).
Proof. intros b r. reflexivity. Qed.

Lemma show_blind_bind {A B} (c : M Runner A) (k : A -> M Runner B) :
  show_blind c -> (forall a, show_blind (k a)) -> show_blind (bind c k).
Proof.
  intros Hc Hk b r. unfold bind. rewrite Hc.
  destruct (c r) as [[e|a] r1]; cbn [fst snd].
  - reflexivity.
  - rewrite Hk. reflexivity.
Qed.

Lemma show_blind_for_each {A} (xs : list A) (body : A -> M Runner unit) :
  (forall x, show_blind (body x)) -> show_blind (for_each xs body).
Proof.
  intros H. induction xs as [|x xs IH]; cbn [for_each].
  - apply show_blind_ret.
  - apply show_blind_bind; [apply H|intros _; exact IH].
Qed.

Lemma show_blind_clean : show_blind clean_workspace.
Proof.
  intros b r. rewrite !clean_workspace_eq. reflexivity.
Qed.

Lemma show_blind_workspace_build (module : string)
    (example features : option string) :
  show_blind (test_workspace_build module example features).
Proof.
  intros b r. rewrite !test_workspace_build_eq. cbv zeta.
  cbn [fst snd]. unfold shown. cbn [self proc].
  rewrite record_attempt_shown. reflexivity.
Qed.

Lemma show_blind_module_build (module : string)
    (example features : option string) :
  show_blind (test_module_build module example features).
Proof.
  intros b r. rewrite !test_module_build_eq. cbv zeta.
  unfold shown at 1 2 3 4 5. cbn [self proc set_show_warnings workspace_root].
  destruct (os_exists _ _); cbn [fst snd].
  - unfold shown. cbn [self proc]. rewrite record_attempt_shown.
    reflexivity.
  - reflexivity.
Qed.

Lemma show_blind_binary (module binary : string) :
  show_blind (test_binary module binary).
Proof.
  intros b r. rewrite !test_binary_eq. cbv zeta.
  destruct (String.eqb binary "main_container"); cbn [fst snd].
  - reflexivity.
  - unfold shown. cbn [self proc]. rewrite record_attempt_shown.
    reflexivity.
Qed.

Lemma show_blind_one_module (entry : string * ModuleConfig) :
  show_blind (test_one_module entry).
Proof.
  destruct entry as [module config]. unfold test_one_module.
  apply show_blind_bind; [apply show_blind_clean|]. intros cleaned.
  destruct (negb cleaned); [apply show_blind_ret|].
  destruct (is_test_only config); [apply show_blind_ret|].
  apply show_blind_bind.
  { destruct (negb (nonempty (examples config)) &&
              negb (nonempty (binaries_of config))).
    - apply show_blind_bind; [apply show_blind_workspace_build|intros _].
      apply show_blind_bind; [apply show_blind_clean|intros _].
      apply show_blind_bind; [apply show_blind_module_build|intros _].
      apply show_blind_ret.
    - apply show_blind_ret. }
  intros _. apply show_blind_bind.
  { destruct (nonempty (binaries_of config)).
    - apply show_blind_for_each. intros x. apply show_blind_binary.
    - apply show_blind_ret. }
  intros _. apply show_blind_bind.
  { apply show_blind_for_each. intros x.
    apply show_blind_bind; [apply show_blind_clean|intros _].
    apply show_blind_bind; [apply show_blind_workspace_build|intros _].
    apply show_blind_ret. }
  intros _. apply show_blind_for_each. intros x.
  apply show_blind_bind; [apply show_blind_clean|intros _].
  apply show_blind_bind; [apply show_blind_module_build|intros _].
  apply show_blind_ret.
Qed.

Lemma show_blind_all_modules : show_blind test_all_modules.
Proof.
  intros b r. unfold test_all_modules, bind, get_self.
  cbn [self shown set_show_warnings modules].
  apply (show_blind_for_each (modules (self r)) test_one_module
           show_blind_one_module b r).
Qed.

End Show_facts.

(** X7: two runs of [main] from the same state whose arguments differ only in
    [--hide-warnings] end with the same result and exit status, the same
    process state (world and invocations), the same result log and the
    same counters: the option changes what is displayed and nothing else *)
Theorem hide_warnings_changes_only_display (os : OS) (root : string)
    (hide1 hide2 flag : bool) (m : MainState) :
  let run hide :=
    main {| arg_workspace_root := root; hide_warnings := hide;
            continue_on_fail := flag |} m in
  fst (run hide1) = fst (run hide2)
  /\ exit_status (fst (run hide1)) = exit_status (fst (run hide2))
  /\ main_proc (snd (run hide1)) = main_proc (snd (run hide2))
  /\ option_map results (tester (snd (run hide1)))
     = option_map results (tester (snd (run hide2)))
  /\ counters (snd (run hide1)) = counters (snd (run hide2)).
Proof.
  cbv beta zeta.
  assert (K : forall hide,
             snd (test_all_modules
                    (first_state
                       {| arg_workspace_root := root; hide_warnings := hide;
                          continue_on_fail := flag |} m))
             = shown (negb hide)
                 (snd (test_all_modules
                         {| self := init (os_resolve root
                                            (world (main_proc m)));
                            proc := main_proc m |}))).
  { intros hide.
    change (first_state _ m)
      with (shown (negb hide)
              {| self := init (os_resolve root (world (main_proc m)));
                 proc := main_proc m |}).
    now rewrite show_blind_all_modules. }
  rewrite !main_cases. unfold manifest. cbn [arg_workspace_root].
  destruct (negb (os_exists _ _)); [repeat split|].
  destruct (os_read _ _) as [e|content]; [repeat split|].
  destruct (negb (PyStr.contains _ _)); [repeat split|].
  cbv zeta. rewrite !K.
  set (base := snd (test_all_modules _)).
  unfold shown, counters. cbn [fst snd tester main_proc self proc option_map].
  change (success_rate (set_show_warnings (negb hide1) (self base)))
    with (success_rate (self base)).
  change (success_rate (set_show_warnings (negb hide2) (self base)))
    with (success_rate (self base)).
  cbn [set_show_warnings failed_tests results total_tests passed_tests
       warnings_count].
  repeat split.
Qed.

(** ** The steps of a run, whatever the builds do *)

Lemma subsequence_nil_l {A} (l : list A) : subsequence [] l.
Proof.
  induction l as [|x l IH]; [constructor|now constructor].
Qed.

Lemma subsequence_app {A} (a b c d : list A) :
  subsequence a b -> subsequence c d -> subsequence (a ++ c) (b ++ d).
Proof.
  intros H K. induction H; cbn.
  - exact K.
  - now constructor.
  - now constructor.
Qed.

Lemma subsequence_length {A} (l1 l2 : list A) :
  subsequence l1 l2 -> List.length l1 <= List.length l2.
Proof.
  intros H. induction H; cbn; lia.
Qed.

Section Following_facts.
Context {os : OS}.
Variable R : list string -> list string -> Prop.
Hypothesis R_nil : R [] [].
Hypothesis R_app :
  forall a b c d, R a b -> R c d -> R (a ++ c)%list (b ++ d)%list.
Hypothesis R_one : forall d, R [d] [d].
Hypothesis no_skip :
  (clean_succeeds /\ directories_exist) \/ (forall ds, R [] ds).

Lemma follows_ret {A} (a : A) : follows R (ret a) [].
Proof. intros r. now exists a, r, []. Qed.

Lemma follows_bind {A B} (c : M Runner A) (k : A -> M Runner B)
    (l1 l2 : list string) :
  follows R c l1 -> (forall a, follows R (k a) l2) ->
  follows R (bind c k) (l1 ++ l2).
Proof.
  intros Hc Hk r.
  destruct (Hc r) as (a & r1 & g1 & E1 & S1 & D1).
  destruct (Hk a r1) as (b & r2 & g2 & E2 & S2 & D2).
  exists b, r2, (g1 ++ g2)%list. unfold bind. rewrite E1, E2.
  split; [reflexivity|]. split.
  - now rewrite replay_app, <- S1.
  - rewrite map_app. now apply R_app.
Qed.

Lemma follows_for_each {A} (xs : list A) (body : A -> M Runner unit)
    (f : A -> list string) :
  (forall x, follows R (body x) (f x)) ->
  follows R (for_each xs body) (flat_map f xs).
Proof.
  intros H. induction xs as [|x xs IH]; cbn [for_each flat_map].
  - apply follows_ret.
  - apply follows_bind; [apply H|intros _; exact IH].
Qed.

Lemma follows_clean : follows R clean_workspace [].
Proof.
  intros r. rewrite clean_workspace_eq. now eexists _, _, [].
Qed.

Lemma follows_workspace_build (module : string)
    (example features : option string) :
  follows R (test_workspace_build module example features)
          [with_example ("Workspace build: " ++ module) example].
Proof.
  intros r. rewrite test_workspace_build_eq. cbv zeta.
  eexists _, _, [_]. split; [reflexivity|]. split; [reflexivity|].
  apply R_one.
Qed.

Lemma follows_binary (module binary : string) :
  follows R (test_binary module binary)
          (if negb (String.eqb binary "main_container")
           then ["Workspace build: " ++ module
                   ++ " (binary: " ++ binary ++ ")"]
           else []).
Proof.
  intros r. rewrite test_binary_eq. cbv zeta.
  destruct (String.eqb binary "main_container"); cbn [negb].
  - now exists tt, r, [].
  - eexists _, _, [_]. split; [reflexivity|]. split; [reflexivity|].
    apply R_one.
Qed.

Lemma follows_module_build (module : string)
    (example features : option string) :
  follows R (test_module_build module example features)
          [with_example ("Module build: " ++ module) example].
Proof.
  intros r. rewrite test_module_build_eq. cbv zeta.
  destruct (os_exists _ _) eqn:X.
  - eexists _, _, [_]. split; [reflexivity|]. split; [reflexivity|].
    apply R_one.
  - destruct no_skip as [[_ D]|S].
    + rewrite D in X. discriminate X.
    + exists false, r, []. split; [reflexivity|]. split; [reflexivity|].
      apply S.
Qed.

Lemma follows_after_clean {B} (k : bool -> M Runner B) (ds : list string) :
  follows R (k true) ds ->
  (forall r, exists b, k false r = (inr b, r)) ->
  follows R (bind clean_workspace k) ds.
Proof.
  intros Hk Hf r. unfold bind. rewrite clean_workspace_eq.
  destruct (success_of _) eqn:C.
  - destruct (Hk {| self := self r;
                    proc := after_call clean_cmd
                              (Some (workspace_root (self r))) 300
                              (proc r) |})
      as (b & r2 & log & E & S & D).
    exists b, r2, log. now rewrite E.
  - destruct no_skip as [[Cl _]|S].
    + rewrite clean_cmd_exited_zero in C by exact Cl. discriminate C.
    + destruct (Hf {| self := self r;
                      proc := after_call clean_cmd
                                (Some (workspace_root (self r))) 300
                                (proc r) |}) as (b & E).
      rewrite E. eexists b, _, [].
      split; [reflexivity|]. split; [reflexivity|]. apply S.
Qed.

Lemma follows_one_module (entry : string * ModuleConfig) :
  follows R (test_one_module entry) (planned entry).
Proof.
  destruct entry as [module config].
  unfold test_one_module, planned.
  apply follows_after_clean; cbn [negb];
    [|intros r; now exists tt].
  destruct (is_test_only config); [apply follows_ret|].
  apply follows_bind.
  { destruct (negb (nonempty (examples config)) &&
              negb (nonempty (binaries_of config))).
    - change ["Workspace build: " ++ module; "Module build: " ++ module]
        with (List.app ["Workspace build: " ++ module]
                (List.app [] (List.app ["Module build: " ++ module] []))).
      apply follows_bind;
        [apply (follows_workspace_build module None)|intros _].
      apply follows_bind; [apply follows_clean|intros _].
      apply follows_bind;
        [apply (follows_module_build module None)|intros _].
      apply follows_ret.
    - apply follows_ret. }
  intros _. apply follows_bind.
  { rewrite <- flat_map_filter.
    destruct (binaries_of config) as [|b bs] eqn:B; cbn [nonempty].
    - apply follows_ret.
    - apply follows_for_each. intros x. apply follows_binary. }
  intros _. apply follows_bind.
  { rewrite <- flat_map_singleton. apply follows_for_each. intros x.
    change [with_example ("Workspace build: " ++ module) (Some x)]
      with (List.app []
              (List.app [with_example ("Workspace build: " ++ module) (Some x)]
                        [])).
    apply follows_bind; [apply follows_clean|intros _].
    apply follows_bind; [apply follows_workspace_build|intros _].
    apply follows_ret. }
  intros _.
  rewrite <- flat_map_singleton. apply follows_for_each. intros x.
  change [with_example ("Module build: " ++ module) (Some x)]
    with (List.app []
            (List.app [with_example ("Module build: " ++ module) (Some x)]
                      [])).
  apply follows_bind; [apply follows_clean|intros _].
  apply follows_bind; [apply follows_module_build|intros _].
  apply follows_ret.
Qed.

Lemma follows_full_run (root : Path) (w : World) :
  R (map description
         (results (self (snd (test_all_modules (fresh root w))))))
    (planned_steps modules_table).
Proof.
  destruct (follows_for_each modules_table test_one_module planned
              follows_one_module (fresh root w))
    as (a & r' & log & E & S & D).
  unfold test_all_modules, bind, get_self. cbn [self fresh modules init].
  rewrite E. cbn [snd]. rewrite S, replay_results.
  cbn [results self fresh init List.app]. rewrite map_map. exact D.
Qed.

End Following_facts.

Lemma full_run_consistent {os : OS} (root : Path) (w : World) :
  consistent (self (snd (test_all_modules (fresh root w)))).
Proof.
  destruct (tracked_all_modules (fresh root w))
    as (a & r1 & ran & E & S & _).
  rewrite E. cbn [snd]. rewrite S.
  apply replay_consistent, init_consistent.
Qed.

(** X8: in no run does the log hold anything but planned steps: the recorded
    descriptions are the planned ones in their order, with the skipped
    steps left out, so at most 41 attempts are counted *)
Theorem recorded_steps_are_planned (os : OS) (root : Path) (w : World) :
  subsequence
    (map description
         (results (self (snd (test_all_modules (fresh root w))))))
    (planned_steps modules_table)
  /\ total_tests (self (snd (test_all_modules (fresh root w)))) <= 41.
Proof.
  assert (H : subsequence
                (map description
                   (results (self (snd (test_all_modules (fresh root w))))))
                (planned_steps modules_table)).
  { apply (@follows_full_run os (@subsequence string)
             (@subsequence_nil string)
             (@subsequence_app string)
             (fun d => subsequence_keep d (@subsequence_nil string))
             (or_intror (@subsequence_nil_l string))). }
  split; [exact H|].
  apply subsequence_length in H.
  rewrite length_map, planned_steps_count in H.
  destruct (full_run_consistent root w) as [_ _ _ Hl _]. lia.
Qed.

(** X9: when the cleans succeed and the module directories exist, every
    planned step is attempted whatever the builds before it did: the log
    holds the 41 planned descriptions in order, and passed and failed
    attempts add up to 41 *)
Theorem planned_steps_are_all_attempted (os : OS) (root : Path) (w : World) :
  clean_succeeds -> directories_exist ->
  map description
      (results (self (snd (test_all_modules (fresh root w)))))
    = planned_steps modules_table
  /\ total_tests (self (snd (test_all_modules (fresh root w)))) = 41
  /\ passed_tests (self (snd (test_all_modules (fresh root w))))
     + failed_tests (self (snd (test_all_modules (fresh root w)))) = 41.
Proof.
  intros Hc Hd.
  assert (H : map description
                (results (self (snd (test_all_modules (fresh root w)))))
              = planned_steps modules_table).
  { apply (@follows_full_run os (@eq (list string)) eq_refl
             (fun a b c d H1 H2 => f_equal2 (@List.app string) H1 H2)
             (fun d => eq_refl)
             (or_introl (conj Hc Hd))). }
  split; [exact H|].
  pose proof (f_equal (@List.length string) H) as L.
  rewrite length_map, planned_steps_count in L.
  destruct (full_run_consistent root w) as [_ _ Hs Hl _]. lia.
Qed.

Lemma warns_cleans : @clean_succeeds warns.
Proof.
  intros cwd timeout w. eexists. cbn. split; reflexivity.
Qed.

(** with a compiler that builds everything, warnings or not *)
Lemma planned_steps_witness :
  @clean_succeeds warns
  /\ total_tests
       (self (snd (@test_all_modules warns (@fresh warns "/ws" tt)))) = 41.
Proof.
  split; [exact warns_cleans|].
  apply (@planned_steps_are_all_attempted warns "/ws" tt warns_cleans
           (fun _ _ => eq_refl)).
Defined.

(** ** More on the quick probe *)

Section Probe_more.
Context {os : OS}.

Lemma module_step_calls (module : string) (s : QuickProbe.Probe) :
  calls (QuickProbe.probe_proc (module_step module s)) =
  (calls (QuickProbe.probe_proc s)
   ++ [probe_call ["cargo"; "build"; "--release"; "-p"; module]])%list.
Proof.
  unfold module_step. cbv zeta.
  destruct (fst (probe_value _)); reflexivity.
Qed.

Lemma binary_step_calls (binary : string) (s : QuickProbe.Probe) :
  calls (QuickProbe.probe_proc (binary_step binary s)) =
  (calls (QuickProbe.probe_proc s)
   ++ [probe_call ["cargo"; "build"; "--release"; "--bin"; binary]])%list.
Proof.
  unfold binary_step. cbv zeta.
  destruct (fst (probe_value _)); reflexivity.
Qed.

Lemma module_steps_calls (ms : list string) (s : QuickProbe.Probe) :
  calls (QuickProbe.probe_proc
           (fold_left (fun s m => module_step m s) ms s)) =
  (calls (QuickProbe.probe_proc s)
   ++ map probe_call
          (map (fun m => ["cargo"; "build"; "--release"; "-p"; m]) ms))%list.
Proof.
  revert s. induction ms as [|m ms IH]; intros s; cbn [fold_left map].
  - now rewrite app_nil_r.
  - rewrite IH, module_step_calls, <- app_assoc. reflexivity.
Qed.

Lemma binary_steps_calls (bs : list string) (s : QuickProbe.Probe) :
  calls (QuickProbe.probe_proc
           (fold_left (fun s b => binary_step b s) bs s)) =
  (calls (QuickProbe.probe_proc s)
   ++ map probe_call
          (map (fun b => ["cargo"; "build"; "--release"; "--bin"; b]) bs))%list.
Proof.
  revert s. induction bs as [|b bs IH]; intros s; cbn [fold_left map].
  - now rewrite app_nil_r.
  - rewrite IH, binary_step_calls, <- app_assoc. reflexivity.
Qed.

Lemma module_step_classified (module : string) (s : QuickProbe.Probe) :
  Permutation (classified (module_step module s))
              (classified s ++ [module]).
Proof.
  unfold module_step, classified. cbv zeta.
  destruct (fst (probe_value _));
    cbn [QuickProbe.working QuickProbe.broken].
  - rewrite <- !app_assoc.
    apply Permutation_app_head, Permutation_app_comm.
  - rewrite map_app, app_assoc. reflexivity.
Qed.

Lemma binary_step_classified (binary : string) (s : QuickProbe.Probe) :
  Permutation (classified (binary_step binary s))
              (classified s ++ [binary ++ " (binary)"]).
Proof.
  unfold binary_step, classified. cbv zeta.
  destruct (fst (probe_value _));
    cbn [QuickProbe.working QuickProbe.broken].
  - rewrite <- !app_assoc.
    apply Permutation_app_head, Permutation_app_comm.
  - rewrite map_app, app_assoc. reflexivity.
Qed.

Lemma module_steps_classified (ms : list string) (s : QuickProbe.Probe) :
  Permutation (classified (fold_left (fun s m => module_step m s) ms s))
              (classified s ++ ms).
Proof.
  revert s. induction ms as [|m ms IH]; intros s; cbn [fold_left].
  - now rewrite app_nil_r.
  - rewrite IH, module_step_classified, <- app_assoc. reflexivity.
Qed.

Lemma binary_steps_classified (bs : list string) (s : QuickProbe.Probe) :
  Permutation (classified (fold_left (fun s b => binary_step b s) bs s))
              (classified s ++ map (fun b => b ++ " (binary)") bs).
Proof.
  revert s. induction bs as [|b bs IH]; intros s; cbn [fold_left map].
  - now rewrite app_nil_r.
  - rewrite IH, binary_step_classified, <- app_assoc. reflexivity.
Qed.

End Probe_more.

(** X10: whatever the builds do, the quick probe returns and makes the same
    thirteen invocations in the same order: one release build for each of
    the eleven modules, then one for each of the two binaries, each with
    no working directory and a timeout of 120 seconds; a failure stops
    nothing *)
Theorem quick_probe_invocations (os : OS) (s : QuickProbe.Probe) :
  (exists verdict, fst (QuickProbe.main s) = inr verdict)
  /\ calls (QuickProbe.probe_proc (snd (QuickProbe.main s))) =
     (calls (QuickProbe.probe_proc s) ++ map probe_call probe_commands)%list
  /\ List.length probe_commands = 13.
Proof.
  rewrite probe_main_eq. cbn [fst snd]. split; [eexists; reflexivity|].
  split; [|reflexivity].
  unfold probed, probe_commands.
  rewrite binary_steps_calls, module_steps_calls.
  cbn [QuickProbe.probe_proc]. now rewrite map_app, <- app_assoc.
Qed.

(** X11: every module and every binary ends up in exactly one of the two lists
    of the quick probe: the working names and the broken names together
    are the thirteen items, each once *)
Theorem quick_probe_classifies_each_once (os : OS) (s : QuickProbe.Probe) :
  Permutation
    (QuickProbe.working (snd (QuickProbe.main s))
     ++ map fst (QuickProbe.broken (snd (QuickProbe.main s))))
    probe_items
  /\ NoDup probe_items
  /\ List.length (QuickProbe.working (snd (QuickProbe.main s)))
     + List.length (QuickProbe.broken (snd (QuickProbe.main s))) = 13.
Proof.
  rewrite probe_main_eq. cbn [snd].
  assert (P : Permutation (classified (probed s)) probe_items).
  { unfold probed. rewrite binary_steps_classified, module_steps_classified.
    reflexivity. }
  split; [exact P|]. split.
  - unfold probe_items. cbn.
    repeat (constructor;
            [cbn; intros H;
             repeat (destruct H as [H|H]; [discriminate H|]); exact H|]).
    constructor.
  - apply Permutation_length in P. unfold classified in P.
    rewrite length_app, length_map in P. exact P.
Qed.

Lemma take_length (n : nat) (s : string) :
  String.length (PyStr.take n s) = Nat.min n (String.length s).
Proof.
  unfold PyStr.take. revert s.
  induction n as [|n IH]; intros s; destruct s as [|c r]; cbn;
    try reflexivity.
  now rewrite IH.
Qed.

Lemma short_error_bounds (error : string) :
  1 <= String.length (QuickProbe.short_error error) <= 100.
Proof.
  unfold QuickProbe.short_error.
  destruct error as [|c r]; cbn [PyStr.truthy].
  - cbn. lia.
  - rewrite take_length. cbn [String.length]. lia.
Qed.

Section Probe_errors.
Context {os : OS}.

Lemma module_step_errors (module : string) (s : QuickProbe.Probe) :
  Forall bounded_error (QuickProbe.broken s) ->
  Forall bounded_error (QuickProbe.broken (module_step module s)).
Proof.
  intros H. unfold module_step. cbv zeta.
  destruct (fst (probe_value _)); cbn [QuickProbe.broken]; [exact H|].
  apply Forall_app. split; [exact H|].
  constructor; [apply short_error_bounds|constructor].
Qed.

Lemma binary_step_errors (binary : string) (s : QuickProbe.Probe) :
  Forall bounded_error (QuickProbe.broken s) ->
  Forall bounded_error (QuickProbe.broken (binary_step binary s)).
Proof.
  intros H. unfold binary_step. cbv zeta.
  destruct (fst (probe_value _)); cbn [QuickProbe.broken]; [exact H|].
  apply Forall_app. split; [exact H|].
  constructor; [apply short_error_bounds|constructor].
Qed.

End Probe_errors.

Lemma fold_left_keeps {S A} (P : S -> Prop) (f : A -> S -> S)
    (xs : list A) (s : S) :
  (forall x s, P s -> P (f x s)) -> P s ->
  P (fold_left (fun s x => f x s) xs s).
Proof.
  intros H. revert s.
  induction xs as [|x xs IH]; intros s Hs; cbn [fold_left].
  - exact Hs.
  - apply IH, H, Hs.
Qed.

(** X12: every entry of the broken list of the quick probe carries an error
    text that is not empty and has at most 100 characters *)
Theorem quick_probe_errors_are_short (os : OS) (s : QuickProbe.Probe) :
  Forall bounded_error (QuickProbe.broken (snd (QuickProbe.main s))).
Proof.
  rewrite probe_main_eq. cbn [snd]. unfold probed.
  apply (fold_left_keeps
           (fun s => Forall bounded_error (QuickProbe.broken s))
           binary_step).
  - intros b s0. apply binary_step_errors.
  - apply (fold_left_keeps
             (fun s => Forall bounded_error (QuickProbe.broken s))
             module_step).
    + intros m s0. apply module_step_errors.
    + constructor.
Qed.

Section Probe_recommendation.
Context {os : OS}.

Lemma module_steps_working (ms : list string) (s : QuickProbe.Probe) :
  incl (QuickProbe.working (fold_left (fun s m => module_step m s) ms s))
       (QuickProbe.working s ++ ms).
Proof.
  revert s. induction ms as [|m ms IH]; intros s; cbn [fold_left].
  - rewrite app_nil_r. apply incl_refl.
  - intros x Hx. apply IH in Hx. apply in_app_or in Hx.
    apply in_or_app. destruct Hx as [Hx|Hx]; [|right; now right].
    unfold module_step in Hx. cbv zeta in Hx.
    destruct (fst (probe_value _)); cbn [QuickProbe.working] in Hx.
    + apply in_app_or in Hx. destruct Hx as [Hx|[<-|[]]];
        [now left|right; now left].
    + now left.
Qed.

Lemma existsb_none {A} (f : A -> bool) (xs : list A) :
  (forall x, In x xs -> f x = false) -> existsb f xs = false.
Proof.
  induction xs as [|x xs IH]; intros H; cbn [existsb].
  - reflexivity.
  - rewrite (H x (or_introl eq_refl)), IH; [reflexivity|].
    intros y Hy. apply H. now right.
Qed.

Lemma modules_not_main (x : string) :
  In x QuickProbe.modules ->
  String.eqb "main" (str_replace " (binary)" "" x) = false
  /\ x <> "main (binary)".
Proof.
  intros H. cbn in H.
  repeat (destruct H as [<-|H]; [split; [reflexivity|discriminate]|]).
  destruct H.
Qed.

Lemma binary_step_working (binary : string) (s : QuickProbe.Probe) :
  QuickProbe.working (binary_step binary s) =
  List.app (QuickProbe.working s)
    (if fst (probe_value
               (fst (os_run ["cargo"; "build"; "--release"; "--bin"; binary]
                            None 120 (world (QuickProbe.probe_proc s)))))
     then [binary ++ " (binary)"] else []).
Proof.
  unfold binary_step, outcome_of. cbv zeta.
  destruct (fst (probe_value _)); cbn [QuickProbe.working].
  - reflexivity.
  - now rewrite app_nil_r.
Qed.

End Probe_recommendation.

(** X13: the quick probe recommends the deployment exactly when the binary
    [main] is in the working list, that is, when its release build, the
    twelfth invocation, exited with code 0: no module and no other binary
    passes for it *)
Theorem quick_probe_recommends_main_only (os : OS) (s : QuickProbe.Probe) :
  let after_modules :=
    fold_left (fun s m => module_step m s) QuickProbe.modules
      {| QuickProbe.working := []; QuickProbe.broken := [];
         QuickProbe.probe_proc := QuickProbe.probe_proc s |} in
  (deployable (QuickProbe.working (snd (QuickProbe.main s))) = true <->
   In "main (binary)" (QuickProbe.working (snd (QuickProbe.main s))))
  /\ (deployable (QuickProbe.working (snd (QuickProbe.main s))) = true <->
      exited_zero
        (fst (os_run ["cargo"; "build"; "--release"; "--bin"; "main"]
                     None 120
                     (world (QuickProbe.probe_proc after_modules))))).
Proof.
  cbv zeta. rewrite probe_main_eq. cbn [snd]. unfold probed.
  set (s11 := fold_left (fun s m => module_step m s) QuickProbe.modules _).
  assert (W : forall x, In x (QuickProbe.working s11) ->
                        In x QuickProbe.modules)
    by (intros x Hx; now apply module_steps_working in Hx).
  assert (N : existsb (String.eqb "main")
                (map (str_replace " (binary)" "") (QuickProbe.working s11))
              = false).
  { apply existsb_none. intros y Hy. apply in_map_iff in Hy.
    destruct Hy as (x & <- & Hx). apply (@modules_not_main x (W x Hx)). }
  cbn [fold_left QuickProbe.binaries].
  rewrite !binary_step_working.
  rewrite <- (probe_value_success
                (fst (os_run ["cargo"; "build"; "--release"; "--bin"; "main"]
                             None 120
                             (world (QuickProbe.probe_proc s11))))).
  set (ok1 := fst (probe_value
                     (fst (os_run
                             ["cargo"; "build"; "--release"; "--bin"; "main"]
                             None 120 (world (QuickProbe.probe_proc s11)))))).
  set (ok2 := fst (probe_value _)).
  unfold deployable. rewrite !map_app, !existsb_app, N, !in_app_iff.
  destruct ok1, ok2; cbn; split; split; intros H;
    try reflexivity; try discriminate H; try tauto;
    repeat (destruct H as [H|H]);
    try discriminate H; try (now destruct H);
    exfalso; now apply (proj2 (@modules_not_main _ (W _ H))).
Qed.

(** ** Runs on a tester that has a history *)

Lemma record_attempt_counters (t : BuildTester) (a : Attempt) :
  total_tests (record_attempt t a) = total_tests t + 1
  /\ passed_tests (record_attempt t a)
     = passed_tests t + count_success true [record_of a]
  /\ failed_tests (record_attempt t a)
     = failed_tests t + count_success false [record_of a]
  /\ warnings_count (record_attempt t a)
     = warnings_count t + total_warnings [record_of a].
Proof.
  unfold record_attempt, record_result, count_success, total_warnings,
    record_of.
  destruct (detect_warnings (a_stdout a) (a_stderr a)) as [|x xs],
    (a_success a); cbn; repeat split; lia.
Qed.

Lemma replay_counters (log : list Attempt) (t : BuildTester) :
  total_tests (replay log t) = total_tests t + List.length log
  /\ passed_tests (replay log t)
     = passed_tests t + count_success true (map record_of log)
  /\ failed_tests (replay log t)
     = failed_tests t + count_success false (map record_of log)
  /\ warnings_count (replay log t)
     = warnings_count t + total_warnings (map record_of log).
Proof.
  revert t. induction log as [|a log IH]; intros t.
  - cbn. repeat split; lia.
  - rewrite replay_cons.
    destruct (IH (record_attempt t a)) as (T & P & F & W).
    destruct (record_attempt_counters t a) as (T1 & P1 & F1 & W1).
    rewrite T, P, F, W, T1, P1, F1, W1.
    change (map record_of (a :: log))
      with ([record_of a] ++ map record_of log)%list.
    rewrite !count_success_app, !total_warnings_app.
    cbn [List.length]. repeat split; lia.
Qed.

(** X14: A run of [test_all_modules] on any tester, new or used, only appends
    to the result log: the records that were there stay as they were, each
    added record holds the warnings that the scanner finds in its own
    stdout and stderr, and every counter grows by what the added records
    contribute. *)
Theorem test_all_modules_only_appends (os : OS) (r : Runner) :
  exists added : list ResultRecord,
    results (self (snd (test_all_modules r)))
      = (results (self r) ++ added)%list
    /\ Forall (fun rec => warnings rec
                          = detect_warnings (stdout rec) (stderr rec)) added
    /\ total_tests (self (snd (test_all_modules r)))
       = total_tests (self r) + List.length added
    /\ passed_tests (self (snd (test_all_modules r)))
       = passed_tests (self r) + count_success true added
    /\ failed_tests (self (snd (test_all_modules r)))
       = failed_tests (self r) + count_success false added
    /\ warnings_count (self (snd (test_all_modules r)))
       = warnings_count (self r) + total_warnings added.
Proof.
  destruct (tracked_all_modules r) as (a & r1 & log & E & S & _).
  rewrite E. cbn [snd]. rewrite S.
  exists (map record_of log).
  destruct (replay_counters log (self r)) as (T & P & F & W).
  rewrite replay_results, length_map.
  split; [reflexivity|]. split.
  - apply Forall_forall. intros rec Hin. apply in_map_iff in Hin.
    destruct Hin as (x & <- & _). reflexivity.
  - now repeat split.
Qed.

(** ** The verdict of the report *)










